(** * Redash client: asynchronous query execution and result retrieval

    A shallow embedding of the three methods of [RedashClient] that make up
    the execution protocol ([executeQuery], [executeQueryById] and the
    private [pollQueryResults]), together with the properties the
    specification states about them.

    The methods are [async] functions that talk to an axios instance, read the
    wall clock and suspend on a timer.  They are embedded in a state-and-
    exception monad over a [World] that carries the clock and the trace of the
    requests and suspensions performed so far; the Redash server, the network
    and the timer are an [Env] that answers every request from that world.
    Calls to the logger have no influence on control flow or results and are
    left out. *)

From Stdlib Require Import ZArith String List Bool Lia Ascii DecimalString.
Import ListNotations.

Local Open Scope string_scope.
Local Open Scope Z_scope.

(** ** JavaScript values

    What [response.data] can hold after axios has decoded a body: the JSON
    values, plus [undefined] for a property that is not there.  Numbers are the
    integers (identifiers, status codes, milliseconds); fractional numbers and
    NaN do not occur in the protocol and are outside the model. *)

#[warnings="-register-all"]
Inductive JValue : Type :=
| JUndefined
| JNull
| JBool (b : bool)
| JNum (n : Z)
| JStr (s : string)
| JArr (items : list JValue)
| JObj (fields : list (string * JValue)).

(** [if (v)]: the values that count as false are [undefined], [null],
    [false], [0] and the empty string. *)
Definition truthy (v : JValue) : bool :=
  match v with
  | JUndefined | JNull => false
  | JBool b => b
  | JNum n => negb (n =? 0)
  | JStr s => negb (String.eqb s EmptyString)
  | JArr _ | JObj _ => true
  end.

(** [v === n] for a number literal [n]. *)
Definition strict_eq_num (v : JValue) (n : Z) : bool :=
  match v with
  | JNum m => m =? n
  | _ => false
  end.

Fixpoint assoc (key : string) (fields : list (string * JValue)) : option JValue :=
  match fields with
  | [] => None
  | (k, v) :: rest => if String.eqb k key then Some v else assoc key rest
  end.

(** [v.p] for a base [v] that is neither [undefined] nor [null]: an own
    property of an object, [undefined] otherwise.  The property names read by
    the modelled code ([job], [id], [status], [query_result_id], [error],
    [query_result], [message]) exist on no prototype of a JSON value. *)
Definition prop (v : JValue) (p : string) : JValue :=
  match v with
  | JObj fields =>
      match assoc p fields with
      | Some x => x
      | None => JUndefined
      end
  | _ => JUndefined
  end.

Definition nullish (v : JValue) : bool :=
  match v with
  | JUndefined | JNull => true
  | _ => false
  end.

(** [s.includes(sub)] *)
Fixpoint includes (s sub : string) : bool :=
  if String.prefix sub s then true
  else match s with
       | EmptyString => false
       | String _ rest => includes rest sub
       end.

(** The parts of the language runtime the code relies on but does not define:
    how a number prints, [JSON.stringify], and the message of the [TypeError]
    raised by reading property [p] of [undefined] or [null]. *)
Class JSRuntime : Type := {
  number_to_string : Z -> string;
  JSON_stringify : JValue -> string;
  type_error_message : JValue -> string -> string
}.

(** ** Errors, responses, the world *)

Record Response : Type := { status : Z; data : JValue }.

(** The values the code can find in a [catch] clause.  [AxiosError] is what a
    rejected [this.client.get/post] carries: its [response] is there when the
    server answered with a status outside 2xx and absent when no response was
    received.  [NewError] is an [Error] made by [new Error(message)]; the
    [TypeError] of a bad property read is represented by it too, since the
    code only looks at [.response] (absent), [instanceof Error] (true) and
    [.message]. *)
Inductive Thrown : Type :=
| AxiosError (message : string) (response : option Response)
| NewError (message : string).

(** [error.message] *)
Definition message_of (error : Thrown) : string :=
  match error with
  | AxiosError message _ => message
  | NewError message => message
  end.

(** [error.response] *)
Definition response_of (error : Thrown) : option Response :=
  match error with
  | AxiosError _ response => response
  | NewError _ => None
  end.

Inductive Request : Type :=
| GET (url : string)
| POST (url : string) (body : JValue).

Inductive Event : Type :=
| Sent (r : Request)
| Slept (ms : Z).

(** [now] is what [Date.now()] reads; [trace] lists the requests sent and the
    timers awaited, the most recent first. *)
Record World : Type := { now : Z; trace : list Event }.

Inductive Reply : Type :=
| Resolved (r : Response)
| Rejected (message : string) (response : option Response).

(** The collaborators: [respond w r] is how the axios promise for request [r]
    issued in world [w] settles and how many milliseconds that takes;
    [slept w ms] is how long a [setTimeout(resolve, ms)] started in world [w]
    takes to fire. *)
Record Env : Type := {
  respond : World -> Request -> Reply * Z;
  slept : World -> Z -> Z
}.

(** How a call ends: with a value, with an exception, or (in the model only)
    because the loop was cut off by its fuel. *)
Inductive Completion (A : Type) : Type :=
| Return (a : A)
| Throw (e : Thrown)
| OutOfFuel.

Arguments Return {A} a.
Arguments Throw {A} e.
Arguments OutOfFuel {A}.

Definition M (A : Type) : Type := World -> Completion A * World.

Definition ret {A} (a : A) : M A := fun w => (Return a, w).

Definition throw {A} (e : Thrown) : M A := fun w => (Throw e, w).

Definition out_of_fuel {A} : M A := fun w => (OutOfFuel, w).

Definition bind {A B} (m : M A) (k : A -> M B) : M B :=
  fun w =>
    match m w with
    | (Return a, w') => k a w'
    | (Throw e, w') => (Throw e, w')
    | (OutOfFuel, w') => (OutOfFuel, w')
    end.

(** [try { body } catch (error) { handler }] *)
Definition try_catch {A} (body : M A) (handler : Thrown -> M A) : M A :=
  fun w =>
    match body w with
    | (Throw e, w') => handler e w'
    | r => r
    end.

Notation "x <- m ;; k" := (bind m (fun x => k))
  (at level 61, m at next level, right associativity).
Notation "m ;;; k" := (bind m (fun _ => k))
  (at level 61, right associativity).

(** [Date.now()] *)
Definition date_now : M Z := fun w => (Return (now w), w).

Definition count_requests (p : Request -> bool) (t : list Event) : nat :=
  List.length (List.filter (fun e => match e with Sent r => p r | Slept _ => false end) t).

Definition is_get (url : string) (r : Request) : bool :=
  match r with
  | GET u => String.eqb u url
  | POST _ _ => false
  end.

Definition is_post (r : Request) : bool :=
  match r with
  | GET _ => false
  | POST _ _ => true
  end.

Section Client.

Context {RT : JSRuntime}.
Variable env : Env.

(** The template-literal conversion [`${v}`]. *)
Fixpoint ToString (v : JValue) : string :=
  match v with
  | JUndefined => "undefined"
  | JNull => "null"
  | JBool true => "true"
  | JBool false => "false"
  | JNum n => number_to_string n
  | JStr s => s
  | JArr items =>
      String.concat ","
        (List.map (fun x => if nullish x then EmptyString else ToString x) items)
  | JObj _ => "[object Object]"
  end.

(** [v.p], raising the [TypeError] when [v] is [undefined] or [null]. *)
Definition get_prop (v : JValue) (p : string) : M JValue :=
  if nullish v then throw (NewError (type_error_message v p))
  else ret (prop v p).

Definition request (r : Request) : M Response :=
  fun w =>
    let (reply, took) := respond env w r in
    let w' := {| now := now w + took; trace := Sent r :: trace w |} in
    match reply with
    | Resolved resp => (Return resp, w')
    | Rejected message response => (Throw (AxiosError message response), w')
    end.

(** [await this.client.get(url)] *)
Definition client_get (url : string) : M Response := request (GET url).

(** [await this.client.post(url, body)] *)
Definition client_post (url : string) (body : JValue) : M Response :=
  request (POST url body).

(** [await new Promise(resolve => setTimeout(resolve, ms))] *)
Definition sleep (ms : Z) : M unit :=
  fun w => (Return tt, {| now := now w + slept env w ms; trace := Slept ms :: trace w |}).

Definition job_url (jobId : JValue) : string := "/api/jobs/" ++ ToString jobId.

Definition result_url (resultId : JValue) : string :=
  "/api/query_results/" ++ ToString resultId.

(** The body of the [try] block of one loop iteration of [pollQueryResults].
    [Some v] stands for [return v]; [None] for reaching the end of the block,
    after the timer. *)
Definition poll_attempt (jobId : JValue) (interval : Z) : M (option JValue) :=
  response <- client_get (job_url jobId) ;;
  job <- get_prop (data response) "job" ;;
  st <- get_prop job "status" ;;
  if strict_eq_num st 3 then
    query_result_id <- get_prop job "query_result_id" ;;
    if truthy query_result_id then
      resultsResponse <- client_get (result_url query_result_id) ;;
      ret (Some (data resultsResponse))
    else
      throw (NewError "Query completed but no query_result_id was provided")
  else if strict_eq_num st 4 then
    err <- get_prop job "error" ;;
    throw (NewError ("Query execution failed: " ++ ToString err))
  else
    sleep interval ;;;
    ret None.

Definition poll_prefix (jobId : JValue) : string :=
  "Failed to poll for query results (job " ++ ToString jobId ++ ")".

(** What the caller sees of the error thrown for a completed job without a
    result id, once the [catch] clause has wrapped it. *)
Definition no_result_id_message (jobId : JValue) : string :=
  poll_prefix jobId ++ ": Query completed but no query_result_id was provided".

(** The [catch] clause of the loop: the message of the error it throws.
    Every [Thrown] is an instance of [Error], so an error without [response]
    takes the [error instanceof Error] branch; the branch for a thrown string
    is never reached. *)
Definition poll_error_message (jobId : JValue) (error : Thrown) : string :=
  let errorMessage := poll_prefix jobId in
  match response_of error with
  | Some resp =>
      if truthy (data resp) then
        match data resp with
        | JStr s => errorMessage ++ ": " ++ s
        | d =>
            if truthy (prop d "message")
            then errorMessage ++ ": " ++ ToString (prop d "message")
            else errorMessage ++ ": " ++ JSON_stringify d
        end
      else errorMessage ++ ": HTTP " ++ ToString (JNum (status resp))
  | None => errorMessage ++ ": " ++ message_of error
  end.

Definition timeout_message (timeout : Z) : string :=
  "Query execution timed out after " ++ ToString (JNum timeout) ++ "ms".

(** The [while] loop of [pollQueryResults] and the [throw] that follows it. *)
Fixpoint poll_loop (fuel : nat) (jobId : JValue) (timeout interval startTime : Z)
  : M JValue :=
  match fuel with
  | O => out_of_fuel
  | S fuel' =>
      t <- date_now ;;
      if t - startTime <? timeout then
        r <- try_catch (poll_attempt jobId interval)
               (fun error => throw (NewError (poll_error_message jobId error))) ;;
        match r with
        | Some v => ret v
        | None => poll_loop fuel' jobId timeout interval startTime
        end
      else throw (NewError (timeout_message timeout))
  end.

Definition pollQueryResults (fuel : nat) (jobId : JValue) (timeout interval : Z)
  : M JValue :=
  startTime <- date_now ;;
  poll_loop fuel jobId timeout interval startTime.

(** The defaults of [pollQueryResults]; both callers rely on them. *)
Definition default_timeout : Z := 60000.
Definition default_interval : Z := 1000.

(** The body [executeQuery] posts: [{ query, data_source_id: dataSourceId,
    parameters: parameters || {}, max_age: maxAge }], [maxAge] defaulting
    to 0. *)
Definition requestData (query : string) (dataSourceId : Z) (parameters : JValue)
    (maxAge : option Z) : JValue :=
  JObj [("query", JStr query);
        ("data_source_id", JNum dataSourceId);
        ("parameters", if truthy parameters then parameters else JObj []);
        ("max_age", JNum (match maxAge with Some a => a | None => 0 end))].

(** [response.data.job.id] is handed to [pollQueryResults] as it is, and the
    poll runs inside the [try]: what it throws is caught here too.  In the
    [catch] clause [error instanceof Error] holds for every [Thrown]. *)
Definition executeQuery (fuel : nat) (query : string) (dataSourceId : Z)
    (parameters : JValue) (maxAge : option Z) : M JValue :=
  try_catch
    (response <- client_post "/api/query_results"
                   (requestData query dataSourceId parameters maxAge) ;;
     job <- get_prop (data response) "job" ;;
     if truthy job then
       id <- get_prop job "id" ;;
       pollQueryResults fuel id default_timeout default_interval
     else
       get_prop (data response) "query_result")
    (fun error => throw (NewError ("Failed to execute query: " ++ message_of error))).

Definition query_results_url (queryId : Z) : string :=
  "/api/queries/" ++ ToString (JNum queryId) ++ "/results".

Definition executeQueryById (fuel : nat) (queryId : Z) (parameters : JValue)
  : M JValue :=
  try_catch
    (response <- client_post (query_results_url queryId)
                   (JObj [("parameters", parameters)]) ;;
     job <- get_prop (data response) "job" ;;
     if truthy job then
       id <- get_prop job "id" ;;
       pollQueryResults fuel id default_timeout default_interval
     else
       ret (data response))
    (fun error =>
       throw (NewError ("Failed to execute query " ++ ToString (JNum queryId)))).

End Client.

(** ** What the environment shows to a poll

    The hypotheses of the theorems below speak about the environment, not
    about the client: which job descriptor a status fetch issued in a given
    world reports, and which worlds a run of non-terminal polls goes
    through. *)

Section Observations.

Context {RT : JSRuntime}.
Variable env : Env.

(** The world in which the promise of request [r], issued in [w], settles. *)
Definition after_request (w : World) (r : Request) : World :=
  {| now := now w + snd (respond env w r); trace := Sent r :: trace w |}.

(** The world in which a timer of [ms] milliseconds, started in [w], fires. *)
Definition after_sleep (w : World) (ms : Z) : World :=
  {| now := now w + slept env w ms; trace := Slept ms :: trace w |}.

(** The job descriptor that [GET /api/jobs/{jobId}], issued in world [w],
    reports: the [job] member of a 2xx body, when there is one to read. *)
Definition reported_job (jobId : JValue) (w : World) : option JValue :=
  match fst (respond env w (GET (job_url jobId))) with
  | Resolved resp =>
      if nullish (data resp) || nullish (prop (data resp) "job") then None
      else Some (prop (data resp) "job")
  | Rejected _ _ => None
  end.

(** A status other than the numbers 3 (completed) and 4 (failed). *)
Definition non_terminal (job : JValue) : bool :=
  negb (strict_eq_num (prop job "status") 3) &&
  negb (strict_eq_num (prop job "status") 4).

(** The status fetch issued in [w] reports a job that is not terminal. *)
Definition reports_non_terminal (jobId : JValue) (w : World) : bool :=
  match reported_job jobId w with
  | Some job => non_terminal job
  | None => false
  end.

(** The world reached from [w] when [n] polls in a row start before the
    timeout, report a non-terminal status and are followed by the timer;
    [None] when one of these [n] polls does not. *)
Fixpoint still_polling (n : nat) (jobId : JValue) (timeout interval startTime : Z)
    (w : World) : option World :=
  match n with
  | O => Some w
  | S n' =>
      if (now w - startTime <? timeout) && reports_non_terminal jobId w
      then still_polling n' jobId timeout interval startTime
             (after_sleep (after_request w (GET (job_url jobId))) interval)
      else None
  end.

(** A poll started in world [w] issues its status fetch number [n + 1] in
    world [w1], before the timeout, and that fetch reports [job]: the [n]
    fetches before it reported non-terminal statuses. *)
Definition reaches (jobId : JValue) (timeout interval : Z) (w : World) (n : nat)
    (w1 : World) (job : JValue) : Prop :=
  still_polling n jobId timeout interval (now w) w = Some w1 /\
  now w1 - now w < timeout /\
  reported_job jobId w1 = Some job.

(** The errors a poll attempt started in world [w] can meet that are not of
    the poller's own making, each with the world in which it is raised: a
    rejected status fetch, a status body from which [job] or [status] cannot be
    read, a rejected result fetch. *)
Inductive attempt_raises (jobId : JValue) (w : World) : Thrown -> World -> Prop :=
| status_fetch_rejected (message : string) (response : option Response) :
    fst (respond env w (GET (job_url jobId))) = Rejected message response ->
    attempt_raises jobId w (AxiosError message response)
      (after_request w (GET (job_url jobId)))
| status_body_unreadable (resp : Response) :
    fst (respond env w (GET (job_url jobId))) = Resolved resp ->
    nullish (data resp) = true ->
    attempt_raises jobId w (NewError (type_error_message (data resp) "job"))
      (after_request w (GET (job_url jobId)))
| status_job_unreadable (resp : Response) :
    fst (respond env w (GET (job_url jobId))) = Resolved resp ->
    nullish (data resp) = false ->
    nullish (prop (data resp) "job") = true ->
    attempt_raises jobId w
      (NewError (type_error_message (prop (data resp) "job") "status"))
      (after_request w (GET (job_url jobId)))
| result_fetch_rejected (job : JValue) (message : string)
    (response : option Response) :
    reported_job jobId w = Some job ->
    prop job "status" = JNum 3 ->
    truthy (prop job "query_result_id") = true ->
    fst (respond env (after_request w (GET (job_url jobId)))
           (GET (result_url (prop job "query_result_id"))))
      = Rejected message response ->
    attempt_raises jobId w (AxiosError message response)
      (after_request (after_request w (GET (job_url jobId)))
         (GET (result_url (prop job "query_result_id")))).

End Observations.


(** ** A runtime and scripted environments to run the model on *)

Definition dquote : string := String (ascii_of_nat 34) EmptyString.

Fixpoint escape (s : string) : string :=
  match s with
  | EmptyString => EmptyString
  | String c rest =>
      if (Ascii.eqb c (ascii_of_nat 34) || Ascii.eqb c (ascii_of_nat 92))%bool
      then String (ascii_of_nat 92) (String c (escape rest))
      else String c (escape rest)
  end.

(** The digits of an integer: how JavaScript prints an integer whose
    absolute value is below 1e21 (from there on it switches to exponent
    form).  Used by the example runtime only. *)
Definition decimal (n : Z) : string := NilZero.string_of_int (Z.to_int n).

(** [JSON.stringify] on the values of the examples: members in stored order,
    quotes and backslashes escaped in strings (control characters, which
    [JSON.stringify] escapes too, do not occur in them). *)
Fixpoint stringify (v : JValue) : string :=
  match v with
  | JUndefined => "undefined"
  | JNull => "null"
  | JBool true => "true"
  | JBool false => "false"
  | JNum n => decimal n
  | JStr s => dquote ++ escape s ++ dquote
  | JArr items =>
      "[" ++ String.concat ","
               (List.map (fun x => if nullish x then "null" else stringify x) items)
          ++ "]"
  | JObj fields =>
      "{" ++ String.concat ","
               ((fix members (fs : list (string * JValue)) : list string :=
                   match fs with
                   | [] => []
                   | (k, JUndefined) :: rest => members rest
                   | (k, x) :: rest =>
                       (dquote ++ escape k ++ dquote ++ ":" ++ stringify x)
                         :: members rest
                   end) fields)
          ++ "}"
  end.

#[export] Instance node : JSRuntime := {|
  number_to_string := decimal;
  JSON_stringify := stringify;
  type_error_message := fun v p =>
    "Cannot read properties of " ++ (match v with JNull => "null" | _ => "undefined" end)
      ++ " (reading '" ++ p ++ "')"
|}.

Definition is_job_get (r : Request) : bool :=
  match r with
  | GET url => String.prefix "/api/jobs/" url
  | POST _ _ => false
  end.

(** An environment that follows a script: the [i]-th status fetch is answered
    by [jobs i], every result fetch by [result], every submission by
    [submitted]; each request takes [latency] milliseconds and timers are
    exact. *)
Definition scripted (jobs : nat -> Reply) (result submitted : Reply) (latency : Z)
  : Env :=
  {| respond := fun w r =>
       (match r with
        | GET url =>
            if String.prefix "/api/jobs/" url
            then jobs (count_requests is_job_get (trace w))
            else result
        | POST _ _ => submitted
        end, latency);
     slept := fun _ ms => ms |}.

Definition ok (d : JValue) : Reply := Resolved {| status := 200; data := d |}.

Definition job_body (fields : list (string * JValue)) : JValue :=
  JObj [("job", JObj fields)].

Definition pending : Reply := ok (job_body [("status", JNum 1)]).

Definition w0 : World := {| now := 0; trace := [] |}.

Definition sample_result : JValue :=
  JObj [("id", JNum 42); ("query", JStr "SELECT 1");
        ("data", JObj [("columns", JArr []); ("rows", JArr [])])].

Definition completed (resultId : JValue) : Reply :=
  ok (job_body [("status", JNum 3); ("query_result_id", resultId)]).

Definition server_error : Reply :=
  Rejected "Request failed with status code 500"
    (Some {| status := 500; data := JStr "boom" |}).

(** Scenario 2 of the specification: the job is pending twice, then completed
    with result 42. *)
Definition env_scenario2 : Env :=
  scripted (fun i => if (i <? 2)%nat then pending else completed (JNum 42))
    (ok sample_result) (ok (job_body [("id", JStr "abc")])) 0.

(** Scenario 3: the job has failed at the first poll. *)
Definition env_failed : Env :=
  scripted
    (fun _ => ok (job_body [("status", JNum 4); ("error", JStr "division by zero")]))
    (ok sample_result) (ok (job_body [("id", JStr "abc")])) 0.

(** A job reported completed with no result id, and with result id 0. *)
Definition env_no_id : Env :=
  scripted (fun _ => ok (job_body [("status", JNum 3)]))
    (ok sample_result) (ok (job_body [("id", JStr "abc")])) 0.

Definition env_zero_id : Env :=
  scripted (fun _ => completed (JNum 0))
    (ok sample_result) (ok (job_body [("id", JStr "abc")])) 0.

(** The job endpoint answers 500 at the second poll. *)
Definition env_poll_rejected : Env :=
  scripted (fun i => if (i <? 1)%nat then pending else server_error)
    (ok sample_result) (ok (job_body [("id", JStr "abc")])) 0.

(** Scenario 4: the job stays pending for ever; requests take no time, or
    two and a half seconds each. *)
Definition env_pending : Env :=
  scripted (fun _ => pending) (ok sample_result) (ok (job_body [("id", JStr "abc")])) 0.

Definition env_slow : Env :=
  scripted (fun _ => pending) (ok sample_result) (ok (job_body [("id", JStr "abc")])) 2500.

(** Scenario 1: the submission is answered with the result at once. *)
Definition env_immediate : Env :=
  scripted (fun _ => pending) (ok sample_result)
    (ok (JObj [("query_result", sample_result)])) 0.

(** The submission is answered 500 with body "boom". *)
Definition env_rejected : Env :=
  scripted (fun _ => pending) (ok sample_result) server_error 0.

(** ** What a poll may leave in the trace *)

(** The events [pollQueryResults] can add to the trace: the timer of the
    loop, a status fetch for its job, a fetch of some result. *)
Definition poll_event {RT : JSRuntime} (jobId : JValue) (interval : Z) (e : Event)
  : Prop :=
  e = Slept interval \/
  e = Sent (GET (job_url jobId)) \/
  exists rid : JValue, e = Sent (GET (result_url rid)).

(** The number of status fetches for [jobId] in a trace. *)
Definition status_fetches {RT : JSRuntime} (jobId : JValue) (t : list Event) : nat :=
  count_requests (is_get (job_url jobId)) t.

(** The request [executeQuery] submits, the one [executeQueryById] submits,
    and the job id a submission response announces ([response.data.job.id]). *)
Definition submission {RT : JSRuntime} (query : string) (dataSourceId : Z)
    (parameters : JValue) (maxAge : option Z) : Request :=
  POST "/api/query_results" (requestData query dataSourceId parameters maxAge).

Definition submission_by_id {RT : JSRuntime} (queryId : Z) (parameters : JValue)
  : Request :=
  POST (query_results_url queryId) (JObj [("parameters", parameters)]).

Definition announced_job (resp : Response) : JValue :=
  prop (prop (data resp) "job") "id".

(** The submission is answered with an empty object. *)
Definition env_empty_body : Env :=
  scripted (fun _ => pending) (ok sample_result) (ok (JObj [])) 0.

(** The job is pending, then fails; the job endpoint is slow. *)
Definition env_late_failure : Env :=
  scripted
    (fun i => if (i <? 3)%nat then pending
              else ok (job_body [("status", JNum 4); ("error", JStr "out of memory")]))
    (ok sample_result) (ok (job_body [("id", JStr "abc")])) 400.

(** ** The other methods of the client

    [createQuery], [updateQuery], [createWidget] and [updateWidget] build a
    request body from their arguments, send it, and classify what comes
    back in two nested [catch] clauses. *)

(** [a || b] *)
Definition js_or (a b : JValue) : JValue := if truthy a then a else b.

(** [v !== undefined ? v : d] *)
Definition defined_or (v d : JValue) : JValue :=
  match v with
  | JUndefined => d
  | _ => v
  end.

Definition is_undefined (v : JValue) : bool :=
  match v with
  | JUndefined => true
  | _ => false
  end.

(** [obj.k = v] on the members of an object: an existing member is replaced
    where it stands, a new one is added at the end. *)
Fixpoint assign (fields : list (string * JValue)) (k : string) (v : JValue)
  : list (string * JValue) :=
  match fields with
  | [] => [(k, v)]
  | (k', v') :: rest =>
      if String.eqb k' k then (k, v) :: rest else (k', v') :: assign rest k v
  end.

(** The arguments of [createWidget] and [updateWidget], as their interfaces
    declare them: an optional member is [undefined] when it is not given, and
    [options], when given, is an object. *)
Module CreateWidgetRequest.
Record t : Type := {
  dashboard_id : JValue;
  visualization_id : JValue;
  text : JValue;
  width : JValue;
  options : option (list (string * JValue))
}.
End CreateWidgetRequest.

Module UpdateWidgetRequest.
Record t : Type := {
  text : JValue;
  width : JValue;
  options : option (list (string * JValue))
}.
End UpdateWidgetRequest.

(** The position given to a text widget that comes without one. *)
Definition default_position : JValue :=
  JObj [("autoHeight", JBool false); ("sizeX", JNum 3); ("sizeY", JNum 3);
        ("minSizeX", JNum 1); ("maxSizeX", JNum 6);
        ("minSizeY", JNum 1); ("maxSizeY", JNum 1000);
        ("col", JNum 0); ("row", JNum 0)].

(** "Ensure position has all required fields": the object that replaces a
    truthy [requestData.options.position]. *)
Definition normalize_position (pos : JValue) : JValue :=
  JObj [("autoHeight", defined_or (prop pos "autoHeight") (JBool false));
        ("sizeX", js_or (prop pos "sizeX") (JNum 3));
        ("sizeY", js_or (prop pos "sizeY") (JNum 3));
        ("minSizeX", defined_or (prop pos "minSizeX") (JNum 1));
        ("maxSizeX", defined_or (prop pos "maxSizeX") (JNum 6));
        ("minSizeY", defined_or (prop pos "minSizeY") (JNum 1));
        ("maxSizeY", defined_or (prop pos "maxSizeY") (JNum 1000));
        ("col", defined_or (prop pos "col") (JNum 0));
        ("row", defined_or (prop pos "row") (JNum 0))].

(** The [text] and [visualization_id] members [createWidget] adds to its
    body: a given text makes a text widget, else a given visualization a
    visualization widget, else an empty text widget. *)
Definition widget_kind (widgetData : CreateWidgetRequest.t) : list (string * JValue) :=
  match CreateWidgetRequest.text widgetData with
  | JUndefined =>
      match CreateWidgetRequest.visualization_id widgetData with
      | JUndefined => [("text", JStr EmptyString); ("visualization_id", JNull)]
      | v => [("visualization_id", v)]
      end
  | t => [("text", t); ("visualization_id", JNull)]
  end.

(** The three steps [createWidget] takes on [requestData.options]: a default
    position for a text widget without one, the completion of a position that
    is there, [isHidden] set when it is undefined. *)
Definition widget_options (has_text : bool) (options : list (string * JValue))
  : list (string * JValue) :=
  let o1 := if negb (truthy (prop (JObj options) "position")) && has_text
            then assign options "position" default_position
            else options in
  let o2 := if truthy (prop (JObj o1) "position")
            then assign o1 "position" (normalize_position (prop (JObj o1) "position"))
            else o1 in
  if is_undefined (prop (JObj o2) "isHidden")
  then assign o2 "isHidden" (JBool false)
  else o2.

(** [widgetData.options || {}] *)
Definition given_options (widgetData : CreateWidgetRequest.t)
  : list (string * JValue) :=
  match CreateWidgetRequest.options widgetData with
  | Some fields => fields
  | None => []
  end.

(** The body [createWidget] posts. *)
Definition create_widget_data (widgetData : CreateWidgetRequest.t) : JValue :=
  let kind := widget_kind widgetData in
  let has_text := negb (is_undefined (prop (JObj kind) "text")) in
  JObj ([("dashboard_id", CreateWidgetRequest.dashboard_id widgetData);
         ("width", js_or (CreateWidgetRequest.width widgetData) (JNum 1));
         ("options", JObj (widget_options has_text (given_options widgetData)))]
          ++ kind)%list.

(** "Ensure options has proper structure with parameterMappings", the step
    [updateWidget] takes when [requestData.options] is truthy and an object.
    [null], [undefined] and primitive values are left alone; so is, seen as
    JSON, an array, which the declared type of the options excludes. *)
Definition update_widget_options (options : JValue) : JValue :=
  match options with
  | JObj fields =>
      let o1 := if truthy (prop (JObj fields) "parameterMappings") then fields
                else assign fields "parameterMappings" (JObj []) in
      JObj (if is_undefined (prop (JObj o1) "isHidden")
            then assign o1 "isHidden" (JBool false)
            else o1)
  | other => other
  end.

(** The body [updateWidget] posts, from its arguments and the widget as the
    server has it. *)
Definition update_widget_data (widgetId : Z) (widgetData : UpdateWidgetRequest.t)
    (currentData : JValue) : JValue :=
  JObj [("id", JNum widgetId);
        ("dashboard_id", prop currentData "dashboard_id");
        ("width", defined_or (UpdateWidgetRequest.width widgetData)
                    (prop currentData "width"));
        ("options",
         update_widget_options
           match UpdateWidgetRequest.options widgetData with
           | Some fields => JObj fields
           | None => prop currentData "options"
           end);
        ("text", match UpdateWidgetRequest.text widgetData with
                 | JUndefined => js_or (prop currentData "text") (JStr EmptyString)
                 | t => t
                 end);
        ("visualization_id", js_or (prop currentData "visualization_id") JNull)].

(** The body [createQuery] posts. *)
Definition create_query_data (queryData : JValue) : JValue :=
  JObj [("name", prop queryData "name");
        ("data_source_id", prop queryData "data_source_id");
        ("query", prop queryData "query");
        ("description", js_or (prop queryData "description") (JStr EmptyString));
        ("options", js_or (prop queryData "options") (JObj []));
        ("schedule", js_or (prop queryData "schedule") JNull);
        ("tags", js_or (prop queryData "tags") (JArr []))].

(** [if (queryData.k !== undefined) requestData.k = queryData.k;] *)
Definition copy_if_defined (queryData : JValue) (k : string)
    (requestData : list (string * JValue)) : list (string * JValue) :=
  if is_undefined (prop queryData k) then requestData
  else assign requestData k (prop queryData k).

(** The members [updateQuery] may copy, in the order of its nine [if]s. *)
Definition update_query_fields : list string :=
  ["name"; "data_source_id"; "query"; "description"; "options"; "schedule";
   "tags"; "is_archived"; "is_draft"].

(** The body [updateQuery] posts: an empty object to which the nine [if]s add
    what is given. *)
Definition update_query_data (queryData : JValue) : list (string * JValue) :=
  List.fold_left (fun requestData k => copy_if_defined queryData k requestData)
    update_query_fields [].

Section Crud.

Context {RT : JSRuntime}.
Variable env : Env.

(** Whether an error of the axios instance has its [request] member: axios
    sets it when the request went out and nothing came back, and leaves it
    out when it gives up before sending (an unsupported protocol, an invalid
    URL, a body it cannot serialise).  [Thrown] does not record which of the
    two a rejection is, so this is left to the runtime of axios. *)
Variable axios_request : Thrown -> bool.

(** [error.request]: as axios made it on its own errors, absent on an [Error]
    made by the code or by the language runtime. *)
Definition request_of (error : Thrown) : bool :=
  match error with
  | AxiosError _ _ => axios_request error
  | NewError _ => false
  end.

(** The inner [catch] clause of [createQuery] and [updateQuery]: what it
    throws for what it caught. *)
Definition api_error (axiosError : Thrown) : Thrown :=
  match response_of axiosError with
  | Some resp =>
      NewError ("Redash API error (" ++ ToString (JNum (status resp)) ++ "): "
                  ++ JSON_stringify (data resp))
  | None =>
      if request_of axiosError
      then NewError ("No response received from Redash API: " ++ message_of axiosError)
      else axiosError
  end.

(** The inner [catch] clause of [createWidget] and [updateWidget]. *)
Definition widget_api_error (axiosError : Thrown) : Thrown :=
  match response_of axiosError with
  | Some resp =>
      let errorData := data resp in
      let errorMessage := "Redash API error (" ++ ToString (JNum (status resp)) ++ ")" in
      NewError
        match errorData with
        | JStr s => errorMessage ++ ": " ++ s
        | JObj _ | JArr _ =>
            if truthy (prop errorData "message")
            then errorMessage ++ ": " ++ ToString (prop errorData "message")
            else if truthy (prop errorData "error")
            then errorMessage ++ ": " ++ ToString (prop errorData "error")
            else errorMessage ++ ": " ++ JSON_stringify errorData
        | _ => errorMessage
        end
  | None =>
      if request_of axiosError
      then NewError ("No response received from Redash API: " ++ message_of axiosError)
      else axiosError
  end.

(** [queryData] is read first by [queryData.name]; the log line after the
    request reads [response.data.id]. *)
Definition createQuery (queryData : JValue) : M JValue :=
  try_catch
    (try_catch
       (_ <- get_prop queryData "name" ;;
        response <- client_post env "/api/queries" (create_query_data queryData) ;;
        _ <- get_prop (data response) "id" ;;
        ret (data response))
       (fun axiosError => throw (api_error axiosError)))
    (fun error => throw (NewError ("Failed to create query: " ++ message_of error))).

Definition query_url (queryId : Z) : string :=
  "/api/queries/" ++ ToString (JNum queryId).

Definition updateQuery (queryId : Z) (queryData : JValue) : M JValue :=
  try_catch
    (try_catch
       (_ <- get_prop queryData "name" ;;
        response <- client_post env (query_url queryId)
                      (JObj (update_query_data queryData)) ;;
        ret (data response))
       (fun axiosError => throw (api_error axiosError)))
    (fun error =>
       throw (NewError ("Failed to update query " ++ ToString (JNum queryId) ++ ": "
                          ++ message_of error))).

Definition createWidget (widgetData : CreateWidgetRequest.t) : M JValue :=
  try_catch
    (try_catch
       (response <- client_post env "/api/widgets" (create_widget_data widgetData) ;;
        _ <- get_prop (data response) "id" ;;
        ret (data response))
       (fun axiosError => throw (widget_api_error axiosError)))
    (fun error => throw (NewError ("Failed to create widget: " ++ message_of error))).

Definition widget_url (widgetId : Z) : string :=
  "/api/widgets/" ++ ToString (JNum widgetId).

(** [currentData] is read first by [currentData.dashboard_id]. *)
Definition updateWidget (widgetId : Z) (widgetData : UpdateWidgetRequest.t)
  : M JValue :=
  try_catch
    (try_catch
       (currentWidget <- client_get env (widget_url widgetId) ;;
        let currentData := data currentWidget in
        _ <- get_prop currentData "dashboard_id" ;;
        response <- client_post env (widget_url widgetId)
                      (update_widget_data widgetId widgetData currentData) ;;
        ret (data response))
       (fun axiosError => throw (widget_api_error axiosError)))
    (fun error =>
       throw (NewError ("Failed to update widget " ++ ToString (JNum widgetId) ++ ": "
                          ++ message_of error))).

End Crud.

(** A server that answers every GET with a stored widget and every POST with
    422 and a message, and one that accepts the POST with a [null] body. *)
Definition stored_widget : JValue :=
  JObj [("id", JNum 9); ("dashboard_id", JNum 4); ("width", JNum 2);
        ("options", JObj [("isHidden", JBool true)]);
        ("text", JStr "hello"); ("visualization_id", JNull)].

Definition unprocessable : Reply :=
  Rejected "Request failed with status code 422"
    (Some {| status := 422; data := JObj [("message", JStr "name is required")] |}).

Definition env_unprocessable : Env :=
  scripted (fun _ => pending) (ok stored_widget) unprocessable 0.

Definition env_null_body : Env :=
  scripted (fun _ => pending) (ok stored_widget) (ok JNull) 0.

(** The widget endpoint is down. *)
Definition env_widget_down : Env :=
  scripted (fun _ => pending) (Rejected "Network Error" None) (ok stored_widget) 0.

(** An [axios_request] for the examples: the request went out unless axios
    refused the protocol of the URL. *)
Definition sent_unless_unsupported (error : Thrown) : bool :=
  negb (String.prefix "Unsupported protocol" (message_of error)).

(** The base URL has no usable protocol: axios rejects before sending. *)
Definition env_unsupported : Env :=
  scripted (fun _ => pending) (ok stored_widget)
    (Rejected "Unsupported protocol localhost:" None) 0.

(** Nothing answers: every request is rejected with a network error. *)
Definition env_offline : Env :=
  scripted (fun _ => Rejected "Network Error" None) (Rejected "Network Error" None)
    (Rejected "Network Error" None) 0.


Definition sample_query : JValue :=
  JObj [("name", JStr "Daily"); ("data_source_id", JNum 5); ("query", JStr "SELECT 1")].

Definition sample_update : JValue :=
  JObj [("name", JStr "Weekly"); ("description", JStr EmptyString);
        ("is_archived", JBool false); ("owner", JStr "me")].

Definition text_widget : CreateWidgetRequest.t :=
  {| CreateWidgetRequest.dashboard_id := JNum 4;
     CreateWidgetRequest.visualization_id := JNum 17;
     CreateWidgetRequest.text := JStr "hello";
     CreateWidgetRequest.width := JNum 0;
     CreateWidgetRequest.options := Some [("position", JObj [("sizeX", JNum 0); ("col", JNum 2)])] |}.

Definition chart_widget : CreateWidgetRequest.t :=
  {| CreateWidgetRequest.dashboard_id := JNum 4;
     CreateWidgetRequest.visualization_id := JNum 17;
     CreateWidgetRequest.text := JUndefined;
     CreateWidgetRequest.width := JUndefined;
     CreateWidgetRequest.options := Some [("parameterMappings", JObj [])] |}.

Definition widget_change : UpdateWidgetRequest.t :=
  {| UpdateWidgetRequest.text := JUndefined;
     UpdateWidgetRequest.width := JNum 3;
     UpdateWidgetRequest.options := None |}.

(** ** Configuration and the shared client

    The constructor of [RedashClient], the module variable [redashClient]
    with [initializeRedashClient] and [getRedashClient], and the first lines
    every command handler runs before it calls the client. *)

(** The variables of [process.env] the code reads; [None] is a variable that
    is not set. *)
Record ProcessEnv : Type := {
  REDASH_URL : option string;
  REDASH_API_KEY : option string;
  REDASH_TIMEOUT : option string;
  NODE_TLS_REJECT_UNAUTHORIZED : option string;
  REDASH_IGNORE_SSL_ERRORS : option string
}.

(** Truthiness of a [string | undefined]. *)
Definition nonempty (s : option string) : bool :=
  match s with
  | Some text => negb (String.eqb text EmptyString)
  | None => false
  end.

(** [a || b] on [string | undefined]. *)
Definition str_or (a b : option string) : option string :=
  if nonempty a then a else b.

(** [a || ''] *)
Definition or_empty (a : option string) : string :=
  match a with
  | Some text => text
  | None => EmptyString
  end.

Definition is_string (s : option string) (text : string) : bool :=
  match s with
  | Some t => String.eqb t text
  | None => false
  end.

(** What the constructor keeps: the base URL and the key of the axios
    instance, its timeout ([None] when [parseInt] gives [NaN]) and the
    [rejectUnauthorized] of its HTTPS agent. *)
Record RedashClient : Type := {
  baseUrl : string;
  apiKey : string;
  timeoutMs : option Z;
  rejectUnauthorized : bool
}.

(** The options of the command line that the handlers read. *)
Record Argv : Type := {
  redash_url : option string;
  redash_api_key : option string;
  redash_timeout : option Z;
  ignore_ssl_errors : option bool
}.

(** How the first lines of a handler end: with the error message about the
    missing configuration, with an exception out of
    [initializeRedashClient] or [getRedashClient], or with the client the
    command will use. *)
Inductive Prelude : Type :=
| MissingConfiguration
| Failed (e : Thrown)
| Ready (client : RedashClient).

Section Configuration.

(** [parseInt], of the runtime; [None] stands for [NaN]. *)
Variable parseInt : string -> option Z.

Definition constructor (baseUrl apiKey : option string) (timeout : option Z)
    (rejectUnauthorized : option bool) (env : ProcessEnv)
  : Thrown + RedashClient :=
  let this_baseUrl := or_empty (str_or baseUrl (REDASH_URL env)) in
  let this_apiKey := or_empty (str_or apiKey (REDASH_API_KEY env)) in
  let timeoutMs :=
    match timeout with
    | Some t => if t =? 0 then parseInt (or_empty (str_or (REDASH_TIMEOUT env) (Some "30000")))
                else Some t
    | None => parseInt (or_empty (str_or (REDASH_TIMEOUT env) (Some "30000")))
    end in
  if String.eqb this_baseUrl EmptyString || String.eqb this_apiKey EmptyString then
    inl (NewError "REDASH_URL and REDASH_API_KEY must be provided either as constructor parameters or in .env file")
  else
    let shouldRejectUnauthorized :=
      match rejectUnauthorized with
      | Some flag => flag
      | None =>
          if is_string (NODE_TLS_REJECT_UNAUTHORIZED env) "0" then false
          else if is_string (REDASH_IGNORE_SSL_ERRORS env) "true" then false
          else true
      end in
    inr {| baseUrl := this_baseUrl; apiKey := this_apiKey; timeoutMs := timeoutMs;
           rejectUnauthorized := shouldRejectUnauthorized |}.

(** [redashClient = new RedashClient(...); return redashClient;] on the
    module variable: when the constructor throws, nothing is assigned. *)
Definition initializeRedashClient (baseUrl apiKey : option string)
    (timeout : option Z) (rejectUnauthorized : option bool) (env : ProcessEnv)
    (redashClient : option RedashClient)
  : (Thrown + RedashClient) * option RedashClient :=
  match constructor baseUrl apiKey timeout rejectUnauthorized env with
  | inr client => (inr client, Some client)
  | inl e => (inl e, redashClient)
  end.

Definition getRedashClient (redashClient : option RedashClient)
  : Thrown + RedashClient :=
  match redashClient with
  | Some client => inr client
  | None =>
      inl (NewError "RedashClient not initialized. Please call initializeRedashClient() first or ensure proper configuration is available.")
  end.

(** The value of [redashClient] once the module is loaded:
    [try { redashClient = new RedashClient(); } catch { redashClient = undefined; }] *)
Definition module_init (env : ProcessEnv) : option RedashClient :=
  match constructor None None None None env with
  | inr client => Some client
  | inl _ => None
  end.

(** The first lines of every command handler, up to [getRedashClient()]. *)
Definition handler_prelude (argv : Argv) (env : ProcessEnv)
    (redashClient : option RedashClient) : Prelude * option RedashClient :=
  let redashUrl := str_or (redash_url argv) (REDASH_URL env) in
  let redashApiKey := str_or (redash_api_key argv) (REDASH_API_KEY env) in
  if negb (nonempty redashUrl) || negb (nonempty redashApiKey) then
    (MissingConfiguration, redashClient)
  else
    match initializeRedashClient redashUrl redashApiKey (redash_timeout argv)
            (Some (negb (match ignore_ssl_errors argv with
                         | Some flag => flag
                         | None => false
                         end)))
            env redashClient with
    | (inl e, state) => (Failed e, state)
    | (inr _, state) =>
        match getRedashClient state with
        | inl e => (Failed e, state)
        | inr client => (Ready client, state)
        end
    end.

End Configuration.

(** A [parseInt] for the examples: right on strings of decimal digits, [None]
    on every other string (where [parseInt] would read a numeric prefix). *)
Definition parse_digits (s : string) : option Z :=
  option_map Z.of_int (NilZero.int_of_string s).

Definition env_file : ProcessEnv :=
  {| REDASH_URL := Some "https://redash.example.org";
     REDASH_API_KEY := Some "secret";
     REDASH_TIMEOUT := None;
     NODE_TLS_REJECT_UNAUTHORIZED := None;
     REDASH_IGNORE_SSL_ERRORS := Some "true" |}.

Definition env_unset : ProcessEnv :=
  {| REDASH_URL := None; REDASH_API_KEY := None; REDASH_TIMEOUT := None;
     NODE_TLS_REJECT_UNAUTHORIZED := None; REDASH_IGNORE_SSL_ERRORS := None |}.

(** The options as yargs fills them when only [--redash-url] is given. *)
Definition argv_url_only : Argv :=
  {| redash_url := Some "https://other.example.org";
     redash_api_key := None;
     redash_timeout := Some 30000;
     ignore_ssl_errors := Some false |}.

(** A client made earlier, for the examples. *)
Definition earlier_client : RedashClient :=
  {| baseUrl := "https://redash.example.org"; apiKey := "secret";
     timeoutMs := Some 30000; rejectUnauthorized := true |}.

(** ** Properties of the poll loop *)

Section PollerFacts.

Context {RT : JSRuntime}.
Variable env : Env.

Lemma prefix_refl (m : string) : String.prefix m m = true.
Proof.
  induction m as [|c m IH]; simpl.
  - reflexivity.
  - destruct (ascii_dec c c) as [_|ne]; [exact IH | now elim ne].
Qed.

Lemma includes_unfold (s sub : string) :
  includes s sub =
  if String.prefix sub s then true
  else match s with
       | EmptyString => false
       | String _ rest => includes rest sub
       end.
Proof. destruct s; reflexivity. Qed.

Lemma includes_refl (m : string) : includes m m = true.
Proof. rewrite includes_unfold, prefix_refl. reflexivity. Qed.

Lemma includes_skip (pre s m : string) :
  includes s m = true -> includes (pre ++ s) m = true.
Proof.
  intros H. induction pre as [|c pre IH].
  - exact H.
  - rewrite includes_unfold. cbn [String.append]. rewrite IH.
    now destruct (String.prefix m (String c (pre ++ s))).
Qed.

Lemma reported_job_inv (jobId job : JValue) (w : World) :
  reported_job env jobId w = Some job ->
  exists resp,
    fst (respond env w (GET (job_url jobId))) = Resolved resp /\
    nullish (data resp) = false /\
    nullish job = false /\
    job = prop (data resp) "job".
Proof.
  unfold reported_job.
  destruct (fst (respond env w (GET (job_url jobId)))) as [resp|msg r]; [|discriminate].
  destruct (nullish (data resp)) eqn:Hd; simpl; [discriminate|].
  destruct (nullish (prop (data resp) "job")) eqn:Hj; [discriminate|].
  intros [= <-]. exists resp. auto.
Qed.

(** The first two statements of the [try] block, when the status fetch reports
    a job: the rest of the block runs on that job, after the request. *)
Lemma attempt_reads_job (jobId job : JValue) (interval : Z) (w : World) :
  reported_job env jobId w = Some job ->
  poll_attempt env jobId interval w =
  (let st := prop job "status" in
   if strict_eq_num st 3 then
     query_result_id <- get_prop job "query_result_id" ;;
     if truthy query_result_id then
       resultsResponse <- client_get env (result_url query_result_id) ;;
       ret (Some (data resultsResponse))
     else
       throw (NewError "Query completed but no query_result_id was provided")
   else if strict_eq_num st 4 then
     err <- get_prop job "error" ;;
     throw (NewError ("Query execution failed: " ++ ToString err))
   else
     sleep env interval ;;; ret None)
    (after_request env w (GET (job_url jobId))).
Proof.
  intros H. destruct (reported_job_inv _ _ _ H) as (resp & Hr & Hd & Hj & ->).
  unfold poll_attempt, client_get, request, after_request.
  unfold bind at 1.
  destruct (respond env w (GET (job_url jobId))) as [reply took]; simpl in Hr; subst reply.
  unfold bind at 1. unfold get_prop at 1. rewrite Hd. unfold ret at 1.
  unfold bind at 1. unfold get_prop at 1. rewrite Hj. unfold ret at 1.
  reflexivity.
Qed.

Lemma attempt_non_terminal (jobId : JValue) (interval : Z) (w : World) :
  reports_non_terminal env jobId w = true ->
  poll_attempt env jobId interval w =
  (Return None, after_sleep env (after_request env w (GET (job_url jobId))) interval).
Proof.
  unfold reports_non_terminal.
  destruct (reported_job env jobId w) as [job|] eqn:H; [|discriminate].
  unfold non_terminal. intros Hs. apply andb_true_iff in Hs as [H3 H4].
  apply negb_true_iff in H3, H4.
  rewrite (attempt_reads_job _ _ _ _ H). cbv zeta. rewrite H3, H4. reflexivity.
Qed.

Lemma loop_step (fuel : nat) (jobId : JValue) (timeout interval startTime : Z)
    (w : World) :
  now w - startTime < timeout ->
  poll_loop env (S fuel) jobId timeout interval startTime w =
  match poll_attempt env jobId interval w with
  | (Return (Some v), w') => (Return v, w')
  | (Return None, w') => poll_loop env fuel jobId timeout interval startTime w'
  | (Throw e, w') => (Throw (NewError (poll_error_message jobId e)), w')
  | (OutOfFuel, w') => (OutOfFuel, w')
  end.
Proof.
  intros Hlt. apply Z.ltb_lt in Hlt.
  cbn [poll_loop]. unfold bind at 1, date_now. rewrite Hlt.
  unfold bind, try_catch, throw, ret.
  destruct (poll_attempt env jobId interval w) as [[[v|]|e|] w']; reflexivity.
Qed.

Lemma loop_exit (fuel : nat) (jobId : JValue) (timeout interval startTime : Z)
    (w : World) :
  timeout <= now w - startTime ->
  poll_loop env (S fuel) jobId timeout interval startTime w =
  (Throw (NewError (timeout_message timeout)), w).
Proof.
  intros Hge. apply Z.ltb_ge in Hge.
  cbn [poll_loop]. unfold bind, date_now. rewrite Hge. reflexivity.
Qed.

(** Polls that report a non-terminal status only move the loop on. *)
Lemma loop_skips_pending (n : nat) (jobId : JValue) (timeout interval startTime : Z) :
  forall (w w1 : World) (fuel : nat),
    still_polling env n jobId timeout interval startTime w = Some w1 ->
    poll_loop env (n + fuel) jobId timeout interval startTime w =
    poll_loop env fuel jobId timeout interval startTime w1.
Proof.
  induction n as [|n IH]; intros w w1 fuel H; simpl in H.
  - now injection H as ->.
  - destruct (now w - startTime <? timeout) eqn:Hlt; [|discriminate].
    destruct (reports_non_terminal env jobId w) eqn:Hnt; [|discriminate].
    simpl in H. apply Z.ltb_lt in Hlt.
    change (S n + fuel)%nat with (S (n + fuel)).
    rewrite loop_step by exact Hlt.
    rewrite attempt_non_terminal by exact Hnt.
    now apply IH.
Qed.

(** The loop seen from [pollQueryResults]: after [n] non-terminal polls the
    call is decided by the attempt made in the world they lead to. *)
Lemma poll_decided_after (n : nat) (jobId : JValue) (timeout interval : Z)
    (w w1 : World) (fuel : nat) :
  still_polling env n jobId timeout interval (now w) w = Some w1 ->
  now w1 - now w < timeout ->
  (n < fuel)%nat ->
  pollQueryResults env fuel jobId timeout interval w =
  match poll_attempt env jobId interval w1 with
  | (Return (Some v), w') => (Return v, w')
  | (Return None, w') =>
      poll_loop env (fuel - S n) jobId timeout interval (now w) w'
  | (Throw e, w') => (Throw (NewError (poll_error_message jobId e)), w')
  | (OutOfFuel, w') => (OutOfFuel, w')
  end.
Proof.
  intros Hn Hlt Hfuel.
  unfold pollQueryResults, bind, date_now.
  replace fuel with (n + S (fuel - S n))%nat at 1 by lia.
  rewrite (loop_skips_pending _ _ _ _ _ _ _ _ Hn).
  now rewrite loop_step.
Qed.

End PollerFacts.

(** ** The claims about the poller *)

Section PollerClaims.

Context {RT : JSRuntime}.
Variable env : Env.

Lemma request_run (r : Request) (w : World) :
  request env r w =
  (match fst (respond env w r) with
   | Resolved resp => Return resp
   | Rejected message response => Throw (AxiosError message response)
   end, after_request env w r).
Proof.
  unfold request, after_request.
  destruct (respond env w r) as [[resp|message response] took]; reflexivity.
Qed.

Lemma attempt_completed_without_id (jobId job : JValue) (interval : Z) (w : World) :
  reported_job env jobId w = Some job ->
  prop job "status" = JNum 3 ->
  truthy (prop job "query_result_id") = false ->
  poll_attempt env jobId interval w =
  (Throw (NewError "Query completed but no query_result_id was provided"),
   after_request env w (GET (job_url jobId))).
Proof.
  intros H Hs Hq.
  destruct (reported_job_inv _ _ _ _ H) as (resp & _ & _ & Hj & _).
  rewrite (attempt_reads_job _ _ _ _ _ H). cbv zeta. rewrite Hs. cbn [strict_eq_num Z.eqb Pos.eqb].
  unfold bind, get_prop. rewrite Hj. unfold ret. rewrite Hq. reflexivity.
Qed.

Lemma attempt_completed_fetches (jobId job : JValue) (interval : Z) (w : World) :
  reported_job env jobId w = Some job ->
  prop job "status" = JNum 3 ->
  truthy (prop job "query_result_id") = true ->
  poll_attempt env jobId interval w =
  (match fst (respond env (after_request env w (GET (job_url jobId)))
                (GET (result_url (prop job "query_result_id")))) with
   | Resolved resp => Return (Some (data resp))
   | Rejected message response => Throw (AxiosError message response)
   end,
   after_request env (after_request env w (GET (job_url jobId)))
     (GET (result_url (prop job "query_result_id")))).
Proof.
  intros H Hs Hq.
  destruct (reported_job_inv _ _ _ _ H) as (resp & _ & _ & Hj & _).
  rewrite (attempt_reads_job _ _ _ _ _ H). cbv zeta. rewrite Hs. cbn [strict_eq_num Z.eqb Pos.eqb].
  unfold bind at 1. unfold get_prop. rewrite Hj. unfold ret at 1. rewrite Hq.
  unfold bind, client_get. rewrite request_run.
  destruct (fst (respond env _ _)); reflexivity.
Qed.

Lemma attempt_failed (jobId job : JValue) (interval : Z) (w : World) :
  reported_job env jobId w = Some job ->
  prop job "status" = JNum 4 ->
  poll_attempt env jobId interval w =
  (Throw (NewError ("Query execution failed: " ++ ToString (prop job "error"))),
   after_request env w (GET (job_url jobId))).
Proof.
  intros H Hs.
  destruct (reported_job_inv _ _ _ _ H) as (resp & _ & _ & Hj & _).
  rewrite (attempt_reads_job _ _ _ _ _ H). cbv zeta. rewrite Hs. cbn [strict_eq_num Z.eqb Pos.eqb].
  unfold bind, get_prop. rewrite Hj. reflexivity.
Qed.

(** C1. When the status fetches of a poll report non-terminal statuses and
    then, still before the timeout, status 3 with a [query_result_id] the code
    accepts, and the fetch of [/api/query_results/{query_result_id}] resolves,
    [pollQueryResults] returns the body of that response and nothing else:
    its last two requests are the status fetch and the result fetch. *)
Theorem poll_completed_returns_fetched_result
    (jobId job : JValue) (timeout interval : Z) (w w1 : World) (n fuel : nat)
    (resp : Response) :
  reaches env jobId timeout interval w n w1 job ->
  prop job "status" = JNum 3 ->
  truthy (prop job "query_result_id") = true ->
  fst (respond env (after_request env w1 (GET (job_url jobId)))
         (GET (result_url (prop job "query_result_id")))) = Resolved resp ->
  (n < fuel)%nat ->
  pollQueryResults env fuel jobId timeout interval w =
  (Return (data resp),
   after_request env (after_request env w1 (GET (job_url jobId)))
     (GET (result_url (prop job "query_result_id")))).
Proof.
  intros (Hn & Hlt & Hjob) Hs Hq Hres Hfuel.
  rewrite (poll_decided_after env n _ _ _ _ w1) by assumption.
  rewrite (attempt_completed_fetches _ _ _ _ Hjob Hs Hq), Hres.
  reflexivity.
Qed.

(** C4. When a status fetch of a poll reports status 4 with error text [m],
    [pollQueryResults] throws an error whose message is the poll prefix
    followed by "Query execution failed: " and [m]; [m] appears in it
    unmodified. *)
Theorem poll_failed_carries_backend_error
    (jobId job : JValue) (timeout interval : Z) (w w1 : World) (n fuel : nat)
    (m : string) :
  reaches env jobId timeout interval w n w1 job ->
  prop job "status" = JNum 4 ->
  prop job "error" = JStr m ->
  (n < fuel)%nat ->
  exists msg : string,
    pollQueryResults env fuel jobId timeout interval w =
    (Throw (NewError msg), after_request env w1 (GET (job_url jobId))) /\
    msg = poll_prefix jobId ++ ": Query execution failed: " ++ m /\
    includes msg m = true.
Proof.
  intros (Hn & Hlt & Hjob) Hs He Hfuel.
  exists (poll_prefix jobId ++ ": Query execution failed: " ++ m).
  split; [|split; [reflexivity|]].
  - rewrite (poll_decided_after env n _ _ _ _ w1) by assumption.
    rewrite (attempt_failed _ _ _ _ Hjob Hs), He. reflexivity.
  - unfold poll_prefix. repeat apply includes_skip. apply includes_refl.
Qed.

(** C5. When a status fetch of a poll reports status 3 and the job has no
    [query_result_id], [pollQueryResults] throws the error that says so: it
    returns no value, and the status fetch is its last request (no result
    fetch, no timer, no further status fetch). *)
Theorem poll_completed_without_result_id
    (jobId job : JValue) (timeout interval : Z) (w w1 : World) (n fuel : nat) :
  reaches env jobId timeout interval w n w1 job ->
  prop job "status" = JNum 3 ->
  prop job "query_result_id" = JUndefined ->
  (n < fuel)%nat ->
  pollQueryResults env fuel jobId timeout interval w =
  (Throw (NewError (no_result_id_message jobId)),
   after_request env w1 (GET (job_url jobId))) /\
  includes (no_result_id_message jobId)
    "Query completed but no query_result_id was provided" = true.
Proof.
  intros (Hn & Hlt & Hjob) Hs Hq Hfuel. split.
  - rewrite (poll_decided_after env n _ _ _ _ w1) by assumption.
    rewrite (attempt_completed_without_id _ _ _ _ Hjob Hs) by now rewrite Hq.
    reflexivity.
  - unfold no_result_id_message. apply includes_skip. reflexivity.
Qed.

(** C9. When a status fetch of a poll reports status 3 and the job has a
    [query_result_id] member whose value is falsy (0, the empty string,
    [null], [false]), [pollQueryResults] throws the same error as when the
    member is missing, and the status fetch is its last request: the result is
    not fetched. *)
Theorem poll_completed_with_falsy_result_id
    (jobId : JValue) (fields : list (string * JValue)) (rid : JValue)
    (timeout interval : Z) (w w1 : World) (n fuel : nat) :
  reaches env jobId timeout interval w n w1 (JObj fields) ->
  prop (JObj fields) "status" = JNum 3 ->
  assoc "query_result_id" fields = Some rid ->
  truthy rid = false ->
  (n < fuel)%nat ->
  pollQueryResults env fuel jobId timeout interval w =
  (Throw (NewError (no_result_id_message jobId)),
   after_request env w1 (GET (job_url jobId))) /\
  count_requests (is_get (result_url rid))
    (trace (after_request env w1 (GET (job_url jobId)))) =
  count_requests (is_get (result_url rid)) (trace w1).
Proof.
  intros (Hn & Hlt & Hjob) Hs Ha Hq Hfuel. split.
  - rewrite (poll_decided_after env n _ _ _ _ w1) by assumption.
    rewrite (attempt_completed_without_id _ _ _ _ Hjob Hs).
    + reflexivity.
    + cbn [prop]. now rewrite Ha.
  - reflexivity.
Qed.

Lemma attempt_raises_run (jobId : JValue) (interval : Z) (w w2 : World) (e : Thrown) :
  attempt_raises env jobId w e w2 ->
  poll_attempt env jobId interval w = (Throw e, w2).
Proof.
  intros [message response H | resp H Hd | resp H Hd Hj | job message response H Hs Hq Hr].
  - unfold poll_attempt, bind, client_get. rewrite request_run, H. reflexivity.
  - unfold poll_attempt. unfold bind at 1. unfold client_get. rewrite request_run, H.
    unfold bind, get_prop. rewrite Hd. reflexivity.
  - unfold poll_attempt. unfold bind at 1. unfold client_get. rewrite request_run, H.
    unfold bind at 1. unfold get_prop at 1. rewrite Hd. unfold ret at 1.
    unfold bind, get_prop. rewrite Hj. reflexivity.
  - rewrite (attempt_completed_fetches _ _ _ _ H Hs Hq), Hr. reflexivity.
Qed.

Lemma attempt_raises_one_status_fetch (jobId : JValue) (w w2 : World) (e : Thrown) :
  attempt_raises env jobId w e w2 ->
  count_requests (is_get (job_url jobId)) (trace w2) =
  S (count_requests (is_get (job_url jobId)) (trace w)).
Proof.
  assert (Hself : forall u, String.eqb u u = true) by (intros u; apply String.eqb_refl).
  intros [message response H | resp H Hd | resp H Hd Hj | job message response H Hs Hq Hr];
    unfold count_requests, after_request; cbn [trace filter is_get];
    rewrite Hself; reflexivity.
Qed.

(** C6. When the attempt a poll makes in some world meets an error (a status
    fetch or a result fetch that is rejected, or a status body that cannot be
    read), [pollQueryResults] ends there: it throws one error built from
    that one, returns no value, and its trace ends with the failing request,
    with exactly one status fetch since the attempt began. *)
Theorem poll_attempt_error_aborts
    (jobId : JValue) (timeout interval : Z) (w w1 w2 : World) (n fuel : nat)
    (e : Thrown) :
  still_polling env n jobId timeout interval (now w) w = Some w1 ->
  now w1 - now w < timeout ->
  attempt_raises env jobId w1 e w2 ->
  (n < fuel)%nat ->
  pollQueryResults env fuel jobId timeout interval w =
  (Throw (NewError (poll_error_message jobId e)), w2) /\
  count_requests (is_get (job_url jobId)) (trace w2) =
  S (count_requests (is_get (job_url jobId)) (trace w1)) /\
  (count_requests (fun _ => true) (trace w2) <=
   2 + count_requests (fun _ => true) (trace w1))%nat.
Proof.
  intros Hn Hlt Hr Hfuel. split; [|split].
  - rewrite (poll_decided_after env n _ _ _ _ w1) by assumption.
    now rewrite (attempt_raises_run _ interval _ _ _ Hr).
  - exact (attempt_raises_one_status_fetch _ _ _ _ Hr).
  - destruct Hr; unfold count_requests, after_request; cbn [trace filter length]; lia.
Qed.

Lemma poll_loop_throws (jobId : JValue) (timeout interval startTime : Z) :
  forall (fuel : nat) (w w' : World) (e : Thrown),
    poll_loop env fuel jobId timeout interval startTime w = (Throw e, w') ->
    e = NewError (timeout_message timeout) \/
    exists cause : Thrown, e = NewError (poll_error_message jobId cause).
Proof.
  induction fuel as [|fuel IH]; intros w w' e H.
  - discriminate.
  - destruct (Z.lt_ge_cases (now w - startTime) timeout) as [Hlt|Hge].
    + rewrite loop_step in H by exact Hlt.
      destruct (poll_attempt env jobId interval w) as [[[v|]|cause|] w2].
      * discriminate.
      * exact (IH _ _ _ H).
      * injection H as <- _. right. now exists cause.
      * discriminate.
    + rewrite loop_exit in H by exact Hge. injection H as <- _. now left.
Qed.

Lemma poll_error_message_prefix (jobId : JValue) (cause : Thrown) :
  exists rest : string, poll_error_message jobId cause = poll_prefix jobId ++ rest.
Proof.
  unfold poll_error_message.
  destruct (response_of cause) as [resp|]; [|eauto].
  destruct (truthy (data resp)); [|eauto].
  destruct (data resp); eauto; destruct (truthy _); eauto.
Qed.

(** C10. Every error [pollQueryResults] throws is a plain [Error]: either
    the timeout error, or one whose message starts with
    "Failed to poll for query results (job <jobId>)".  The errors the poller
    makes itself (job failed, completed without result id) are among the
    latter, so the kinds differ by message text only. *)
Theorem poll_errors_share_prefix
    (jobId : JValue) (timeout interval : Z) (fuel : nat) (w w' : World)
    (e : Thrown) :
  pollQueryResults env fuel jobId timeout interval w = (Throw e, w') ->
  e = NewError (timeout_message timeout) \/
  exists rest : string, e = NewError (poll_prefix jobId ++ rest).
Proof.
  unfold pollQueryResults, bind, date_now. intros H.
  destruct (poll_loop_throws _ _ _ _ _ _ _ _ H) as [->|[cause ->]].
  - now left.
  - right. destruct (poll_error_message_prefix jobId cause) as [rest ->]. now exists rest.
Qed.

(** C8. With a backend that always answers the fetch of a given result id
    with the same response, two polls that each see status 3 with that result
    id (whatever the job, and whatever world each starts in, the second one
    possibly after the first) return the same value, the body of that
    response; and each of them sends its own request for the result: nothing
    is kept from one fetch to the next. *)
Theorem result_fetch_repeats
    (rid : JValue) (resp : Response)
    (jobIdA jobA jobIdB jobB : JValue) (timeout interval : Z)
    (wa wa1 wb wb1 : World) (na nb fuel : nat) :
  (forall w : World, fst (respond env w (GET (result_url rid))) = Resolved resp) ->
  truthy rid = true ->
  reaches env jobIdA timeout interval wa na wa1 jobA ->
  prop jobA "status" = JNum 3 -> prop jobA "query_result_id" = rid ->
  reaches env jobIdB timeout interval wb nb wb1 jobB ->
  prop jobB "status" = JNum 3 -> prop jobB "query_result_id" = rid ->
  (na < fuel)%nat -> (nb < fuel)%nat ->
  let first := pollQueryResults env fuel jobIdA timeout interval wa in
  let second := pollQueryResults env fuel jobIdB timeout interval wb in
  fst first = Return (data resp) /\
  fst second = Return (data resp) /\
  count_requests (is_get (result_url rid)) (trace (snd first)) =
  S (count_requests (is_get (result_url rid)) (trace wa1)) /\
  count_requests (is_get (result_url rid)) (trace (snd second)) =
  S (count_requests (is_get (result_url rid)) (trace wb1)).
Proof.
  intros Hstable Hrid (Ha & Hlta & Hjoba) Hsa Hqa (Hb & Hltb & Hjobb) Hsb Hqb Hfa Hfb.
  assert (Hself : forall u, String.eqb u u = true) by (intros u; apply String.eqb_refl).
  assert (Hne : forall j, String.eqb (job_url j) (result_url rid) = false) by reflexivity.
  cbv zeta.
  rewrite (poll_decided_after env na _ _ _ _ wa1) by assumption.
  rewrite (poll_decided_after env nb _ _ _ _ wb1) by assumption.
  rewrite (attempt_completed_fetches _ _ _ _ Hjoba Hsa) by now rewrite Hqa.
  rewrite (attempt_completed_fetches _ _ _ _ Hjobb Hsb) by now rewrite Hqb.
  rewrite Hqa, Hqb, !Hstable.
  unfold count_requests, after_request. cbn [fst snd trace filter is_get].
  rewrite Hself, !Hne. auto.
Qed.

(** With status fetches that only report non-terminal statuses, a loop
    entered [k] milliseconds or less before the timeout ends within [k]
    further attempts, by the timeout error. *)
Lemma loop_times_out (jobId : JValue) (timeout interval latency lag startTime : Z) :
  (forall w : World, reports_non_terminal env jobId w = true) ->
  (forall w : World, 0 <= snd (respond env w (GET (job_url jobId))) <= latency) ->
  (forall w : World, interval <= slept env w interval <= interval + lag) ->
  1 <= interval ->
  forall (k : nat) (w : World) (fuel : nat),
    timeout - (now w - startTime) <= Z.of_nat k ->
    now w - startTime <= timeout + interval + latency + lag ->
    (k < fuel)%nat ->
    exists w' : World,
      poll_loop env fuel jobId timeout interval startTime w =
      (Throw (NewError (timeout_message timeout)), w') /\
      timeout <= now w' - startTime <= timeout + interval + latency + lag.
Proof.
  intros Hnt Hlat Hsleep Hint.
  induction k as [|k IH]; intros w fuel Hk Hinv Hfuel;
    (destruct fuel as [|fuel]; [lia|]);
    destruct (Z.lt_ge_cases (now w - startTime) timeout) as [Hlt|Hge];
    try (rewrite loop_exit by exact Hge; exists w; split; [reflexivity|lia]).
  - lia.
  - rewrite loop_step by exact Hlt.
    rewrite attempt_non_terminal by apply Hnt.
    pose proof (Hlat w) as Hl.
    set (w1 := after_request env w (GET (job_url jobId))).
    pose proof (Hsleep w1) as Hs.
    assert (Hw1 : now w1 = now w + snd (respond env w (GET (job_url jobId))))
      by reflexivity.
    apply IH; unfold after_sleep; cbn [now]; lia.
Qed.

(** C2, as amended. When no status fetch ever reports status 3 or 4 (any
    other status counts as non-terminal), a status fetch takes between 0 and
    [latency] milliseconds, the timer fires between 0 and [lag] milliseconds
    late and the interval is at least a millisecond, [pollQueryResults]
    throws the timeout error, at a time that is at least [timeout] and at
    most [timeout + interval + latency + lag] after the call.  With fetches
    that take no time and exact timers this is the bound
    [timeout + interval]. *)
Theorem poll_never_terminal_times_out
    (jobId : JValue) (timeout interval latency lag : Z) (w : World) :
  (forall w' : World, reports_non_terminal env jobId w' = true) ->
  (forall w' : World, 0 <= snd (respond env w' (GET (job_url jobId))) <= latency) ->
  (forall w' : World, interval <= slept env w' interval <= interval + lag) ->
  1 <= interval ->
  0 <= timeout ->
  forall fuel : nat,
    (Z.to_nat timeout < fuel)%nat ->
    exists w' : World,
      pollQueryResults env fuel jobId timeout interval w =
      (Throw (NewError (timeout_message timeout)), w') /\
      timeout <= now w' - now w <= timeout + interval + latency + lag.
Proof.
  intros Hnt Hlat Hsleep Hint Htime fuel Hfuel.
  unfold pollQueryResults, bind, date_now.
  pose proof (Hlat w) as Hl.
  pose proof (Hsleep w) as Hs.
  apply (loop_times_out jobId timeout interval latency lag (now w)
           Hnt Hlat Hsleep Hint (Z.to_nat timeout)); [lia | lia | exact Hfuel].
Qed.

End PollerClaims.

(** ** The claims about the dispatcher *)

Section DispatcherClaims.

Context {RT : JSRuntime}.
Variable env : Env.

(** [executeQuery] on a body that holds no job: the [query_result] member is
    returned, and the submission is the only request. *)
Lemma executeQuery_immediate (fuel : nat) (query : string) (dataSourceId : Z)
    (parameters : JValue) (maxAge : option Z) (w : World) (resp : Response) :
  let r := POST "/api/query_results" (requestData query dataSourceId parameters maxAge) in
  fst (respond env w r) = Resolved resp ->
  nullish (data resp) = false ->
  truthy (prop (data resp) "job") = false ->
  executeQuery env fuel query dataSourceId parameters maxAge w =
  (Return (prop (data resp) "query_result"), after_request env w r).
Proof.
  intros r Hr Hd Hj.
  unfold executeQuery, try_catch. unfold bind at 1. unfold client_post.
  rewrite request_run. fold r. rewrite Hr.
  unfold bind, get_prop. rewrite Hd. unfold ret. rewrite Hj. reflexivity.
Qed.

(** [executeQueryById] on a body that holds no job: the whole body is
    returned, and the submission is the only request. *)
Lemma executeQueryById_immediate (fuel : nat) (queryId : Z) (parameters : JValue)
    (w : World) (resp : Response) :
  let r := POST (query_results_url queryId) (JObj [("parameters", parameters)]) in
  fst (respond env w r) = Resolved resp ->
  nullish (data resp) = false ->
  truthy (prop (data resp) "job") = false ->
  executeQueryById env fuel queryId parameters w =
  (Return (data resp), after_request env w r).
Proof.
  intros r Hr Hd Hj.
  unfold executeQueryById, try_catch. unfold bind at 1. unfold client_post.
  rewrite request_run. fold r. rewrite Hr.
  unfold bind, get_prop. rewrite Hd. unfold ret. rewrite Hj. reflexivity.
Qed.


End DispatcherClaims.

(** ** The scenarios, run *)

Lemma poll_completed_returns_fetched_result_witness :
  exists w' : World,
    pollQueryResults env_scenario2 10 (JStr "abc") 60000 1000 w0 =
    (Return sample_result, w') /\
    trace w' =
    [Sent (GET "/api/query_results/42"); Sent (GET "/api/jobs/abc");
     Slept 1000; Sent (GET "/api/jobs/abc");
     Slept 1000; Sent (GET "/api/jobs/abc")].
Proof.
  eexists. split.
  - apply (poll_completed_returns_fetched_result env_scenario2 (JStr "abc")
             (JObj [("status", JNum 3); ("query_result_id", JNum 42)])
             60000 1000 w0
             {| now := 2000;
                trace := [Slept 1000; Sent (GET "/api/jobs/abc");
                          Slept 1000; Sent (GET "/api/jobs/abc")] |}
             2 10 {| status := 200; data := sample_result |}).
    + repeat split; reflexivity.
    + reflexivity.
    + reflexivity.
    + reflexivity.
    + lia.
  - reflexivity.
Defined.

Lemma poll_failed_carries_backend_error_witness :
  exists msg : string,
    pollQueryResults env_failed 10 (JStr "abc") 60000 1000 w0 =
    (Throw (NewError msg), after_request env_failed w0 (GET "/api/jobs/abc")) /\
    msg = "Failed to poll for query results (job abc): Query execution failed: division by zero" /\
    includes msg "division by zero" = true.
Proof.
  apply (poll_failed_carries_backend_error env_failed (JStr "abc")
           (JObj [("status", JNum 4); ("error", JStr "division by zero")])
           60000 1000 w0 w0 0 10 "division by zero").
  - repeat split; reflexivity.
  - reflexivity.
  - reflexivity.
  - lia.
Defined.

Lemma poll_completed_without_result_id_witness :
  pollQueryResults env_no_id 10 (JStr "abc") 60000 1000 w0 =
  (Throw (NewError "Failed to poll for query results (job abc): Query completed but no query_result_id was provided"),
   {| now := 0; trace := [Sent (GET "/api/jobs/abc")] |}).
Proof.
  apply (poll_completed_without_result_id env_no_id (JStr "abc")
           (JObj [("status", JNum 3)]) 60000 1000 w0 w0 0 10).
  - repeat split; reflexivity.
  - reflexivity.
  - reflexivity.
  - lia.
Defined.

Lemma poll_completed_with_falsy_result_id_witness :
  pollQueryResults env_zero_id 10 (JStr "abc") 60000 1000 w0 =
  (Throw (NewError "Failed to poll for query results (job abc): Query completed but no query_result_id was provided"),
   {| now := 0; trace := [Sent (GET "/api/jobs/abc")] |}).
Proof.
  apply (poll_completed_with_falsy_result_id env_zero_id (JStr "abc")
           [("status", JNum 3); ("query_result_id", JNum 0)] (JNum 0)
           60000 1000 w0 w0 0 10).
  - repeat split; reflexivity.
  - reflexivity.
  - reflexivity.
  - reflexivity.
  - lia.
Defined.

Lemma poll_attempt_error_aborts_witness :
  pollQueryResults env_poll_rejected 10 (JStr "abc") 60000 1000 w0 =
  (Throw (NewError "Failed to poll for query results (job abc): boom"),
   {| now := 1000;
      trace := [Sent (GET "/api/jobs/abc"); Slept 1000; Sent (GET "/api/jobs/abc")] |}).
Proof.
  apply (poll_attempt_error_aborts env_poll_rejected (JStr "abc") 60000 1000 w0
           {| now := 1000; trace := [Slept 1000; Sent (GET "/api/jobs/abc")] |}
           {| now := 1000;
              trace := [Sent (GET "/api/jobs/abc"); Slept 1000;
                        Sent (GET "/api/jobs/abc")] |}
           1 10
           (AxiosError "Request failed with status code 500"
              (Some {| status := 500; data := JStr "boom" |}))).
  - reflexivity.
  - reflexivity.
  - apply (status_fetch_rejected env_poll_rejected (JStr "abc")
             {| now := 1000; trace := [Slept 1000; Sent (GET "/api/jobs/abc")] |}
             "Request failed with status code 500"
             (Some {| status := 500; data := JStr "boom" |})).
    reflexivity.
  - lia.
Defined.

Lemma poll_errors_share_prefix_witness :
  NewError "Failed to poll for query results (job abc): Query execution failed: division by zero"
    = NewError (timeout_message 60000) \/
  exists rest : string,
    NewError "Failed to poll for query results (job abc): Query execution failed: division by zero"
    = NewError (poll_prefix (JStr "abc") ++ rest).
Proof.
  apply (poll_errors_share_prefix env_failed (JStr "abc") 60000 1000 10 w0
           {| now := 0; trace := [Sent (GET "/api/jobs/abc")] |}).
  reflexivity.
Defined.

Lemma result_fetch_repeats_witness :
  let first := pollQueryResults env_scenario2 10 (JStr "abc") 60000 1000 w0 in
  let second := pollQueryResults env_scenario2 10 (JStr "abc") 60000 1000 (snd first) in
  fst first = Return sample_result /\
  fst second = Return sample_result /\
  count_requests (is_get "/api/query_results/42") (trace (snd first)) = 1%nat /\
  count_requests (is_get "/api/query_results/42") (trace (snd second)) = 2%nat.
Proof.
  pose (job := JObj [("status", JNum 3); ("query_result_id", JNum 42)]).
  pose (wa1 := {| now := 2000;
                  trace := [Slept 1000; Sent (GET "/api/jobs/abc");
                            Slept 1000; Sent (GET "/api/jobs/abc")] |}).
  pose (wb := snd (pollQueryResults env_scenario2 10 (JStr "abc") 60000 1000 w0)).
  assert (Hstable : forall w : World,
             fst (respond env_scenario2 w (GET (result_url (JNum 42))))
             = Resolved {| status := 200; data := sample_result |})
    by (intros w; reflexivity).
  assert (Ha : reaches env_scenario2 (JStr "abc") 60000 1000 w0 2 wa1 job)
    by (vm_compute; repeat split; reflexivity).
  assert (Hb : reaches env_scenario2 (JStr "abc") 60000 1000 wb 0 wb job)
    by (vm_compute; repeat split; reflexivity).
  assert (Hfa : (2 < 10)%nat) by lia.
  assert (Hfb : (0 < 10)%nat) by lia.
  pose proof
    (result_fetch_repeats env_scenario2 (JNum 42)
       {| status := 200; data := sample_result |}
       (JStr "abc") job (JStr "abc") job 60000 1000 w0 wa1 wb wb 2 0 10
       Hstable eq_refl Ha eq_refl eq_refl Hb eq_refl eq_refl Hfa Hfb) as H.
  vm_compute in H. vm_compute. exact H.
Defined.

Lemma poll_never_terminal_times_out_witness :
  exists w' : World,
    pollQueryResults env_pending (S (Z.to_nat 60000)) (JStr "abc") 60000 1000 w0 =
    (Throw (NewError (timeout_message 60000)), w') /\
    60000 <= now w' - now w0 <= 60000 + 1000 + 0 + 0.
Proof.
  apply (poll_never_terminal_times_out env_pending (JStr "abc") 60000 1000 0 0 w0).
  - intros w'. reflexivity.
  - intros w'. cbn [env_pending scripted respond snd]. lia.
  - intros w'. cbn [env_pending scripted slept]. lia.
  - lia.
  - lia.
  - apply Nat.lt_succ_diag_r.
Defined.

(** C2, as stated, fails: when every status fetch takes 2500 ms, the poll
    with the default timeout and interval times out 63000 ms after the call,
    later than timeout + interval. *)
Lemma poll_timeout_exceeds_stated_bound :
  (forall w : World, reports_non_terminal env_slow (JStr "abc") w = true) /\
  exists w' : World,
    pollQueryResults env_slow 100 (JStr "abc") default_timeout default_interval w0 =
    (Throw (NewError (timeout_message default_timeout)), w') /\
    now w' - now w0 = 63000 /\
    ~ (now w' - now w0 <= default_timeout + default_interval).
Proof.
  split.
  - intros w. reflexivity.
  - eexists. split; [vm_compute; reflexivity|]. split; [reflexivity|].
    vm_compute. intros H. now apply H.
Qed.

(** C3. [POST /api/queries/7/results] is answered with
    [{query_result: R}] and no job.  [executeQueryById] sends no status
    fetch, but what it returns is the whole body, not [R]; [executeQuery], on
    the same answer, returns [R]. *)
Theorem executeQueryById_returns_envelope :
  executeQueryById env_immediate 10 7 JUndefined w0 =
  (Return (JObj [("query_result", sample_result)]),
   {| now := 0;
      trace := [Sent (POST "/api/queries/7/results"
                        (JObj [("parameters", JUndefined)]))] |}) /\
  JObj [("query_result", sample_result)] <> sample_result /\
  executeQuery env_immediate 10 "SELECT 1" 5 JUndefined None w0 =
  (Return sample_result,
   {| now := 0;
      trace := [Sent (POST "/api/query_results"
                        (requestData "SELECT 1" 5 JUndefined None))] |}).
Proof.
  split; [reflexivity|]. split; [discriminate|reflexivity].
Qed.



(** ** Further properties of the poller *)

Section PollerBounds.

Context {RT : JSRuntime}.
Variable env : Env.

Lemma strict_eq_num_true (v : JValue) (n : Z) :
  strict_eq_num v n = true -> v = JNum n.
Proof.
  destruct v; simpl; try discriminate. intros H. apply Z.eqb_eq in H. now subst.
Qed.

Lemma reported_job_none (jobId : JValue) (w : World) :
  reported_job env jobId w = None ->
  exists e : Thrown,
    attempt_raises env jobId w e (after_request env w (GET (job_url jobId))).
Proof.
  unfold reported_job.
  destruct (fst (respond env w (GET (job_url jobId)))) as [resp|message response] eqn:Hr.
  - destruct (nullish (data resp)) eqn:Hd; cbn [orb].
    + intros _. eexists. apply (status_body_unreadable env jobId w resp); assumption.
    + destruct (nullish (prop (data resp) "job")) eqn:Hj; [|discriminate].
      intros _. eexists. apply (status_job_unreadable env jobId w resp); assumption.
  - intros _. eexists. apply (status_fetch_rejected env jobId w message response Hr).
Qed.

(** Every way one attempt can end: by an error raised right after the status
    fetch, by the timer after a non-terminal status, or by the outcome of the
    result fetch after a completed status with a result id. *)
Lemma attempt_outcome (jobId : JValue) (interval : Z) (w : World) :
  (exists e : Thrown,
     poll_attempt env jobId interval w =
     (Throw e, after_request env w (GET (job_url jobId)))) \/
  poll_attempt env jobId interval w =
  (Return None, after_sleep env (after_request env w (GET (job_url jobId))) interval) \/
  (exists job : JValue,
     reported_job env jobId w = Some job /\
     prop job "status" = JNum 3 /\
     truthy (prop job "query_result_id") = true /\
     poll_attempt env jobId interval w =
     (match fst (respond env (after_request env w (GET (job_url jobId)))
                   (GET (result_url (prop job "query_result_id")))) with
      | Resolved resp => Return (Some (data resp))
      | Rejected message response => Throw (AxiosError message response)
      end,
      after_request env (after_request env w (GET (job_url jobId)))
        (GET (result_url (prop job "query_result_id"))))).
Proof.
  destruct (reported_job env jobId w) as [job|] eqn:Hjob.
  - destruct (strict_eq_num (prop job "status") 3) eqn:H3.
    + apply strict_eq_num_true in H3.
      destruct (truthy (prop job "query_result_id")) eqn:Hq.
      * right. right. exists job. repeat split; try assumption.
        exact (attempt_completed_fetches env jobId job interval w Hjob H3 Hq).
      * left. eexists.
        exact (attempt_completed_without_id env jobId job interval w Hjob H3 Hq).
    + destruct (strict_eq_num (prop job "status") 4) eqn:H4.
      * apply strict_eq_num_true in H4. left. eexists.
        exact (attempt_failed env jobId job interval w Hjob H4).
      * right. left. apply attempt_non_terminal.
        unfold reports_non_terminal, non_terminal. now rewrite Hjob, H3, H4.
  - destruct (reported_job_none _ _ Hjob) as [e He].
    left. exists e. now apply attempt_raises_run.
Qed.

Lemma loop_terminates (jobId : JValue) (timeout interval startTime : Z) :
  (forall (w : World) (r : Request), 0 <= snd (respond env w r)) ->
  (forall w : World, interval <= slept env w interval) ->
  1 <= interval ->
  forall (k : nat) (w : World) (fuel : nat),
    timeout - (now w - startTime) <= Z.of_nat k ->
    (k < fuel)%nat ->
    fst (poll_loop env fuel jobId timeout interval startTime w) <> OutOfFuel.
Proof.
  intros Hdur Hsleep Hint.
  induction k as [|k IH]; intros w fuel Hk Hfuel;
    (destruct fuel as [|fuel]; [lia|]);
    destruct (Z.lt_ge_cases (now w - startTime) timeout) as [Hlt|Hge];
    try (rewrite loop_exit by exact Hge; discriminate).
  - lia.
  - rewrite loop_step by exact Hlt.
    destruct (attempt_outcome jobId interval w) as [[e ->] | [-> | (job & _ & _ & _ & ->)]].
    + discriminate.
    + set (w1 := after_request env w (GET (job_url jobId))).
      pose proof (Hsleep w1) as Hs.
      pose proof (Hdur w (GET (job_url jobId))) as Hd.
      assert (Hw1 : now w1 = now w + snd (respond env w (GET (job_url jobId))))
        by reflexivity.
      apply IH; unfold after_sleep; cbn [now]; lia.
    + destruct (fst (respond env _ _)); discriminate.
Qed.

(** X1. The loop ends for every backend: when requests take no negative
    time, the timer is never early and the interval is at least a
    millisecond, [pollQueryResults] given more fuel than [timeout]
    milliseconds returns or throws. *)
Theorem poll_terminates
    (jobId : JValue) (timeout interval : Z) (w : World) (fuel : nat) :
  (forall (w' : World) (r : Request), 0 <= snd (respond env w' r)) ->
  (forall w' : World, interval <= slept env w' interval) ->
  1 <= interval ->
  (Z.to_nat timeout < fuel)%nat ->
  fst (pollQueryResults env fuel jobId timeout interval w) <> OutOfFuel.
Proof.
  intros Hdur Hsleep Hint Hfuel.
  unfold pollQueryResults, bind, date_now.
  apply (loop_terminates jobId timeout interval (now w) Hdur Hsleep Hint
           (Z.to_nat timeout)); [lia | exact Hfuel].
Qed.

Lemma loop_timeout_not_early (jobId : JValue) (timeout interval startTime : Z) :
  forall (fuel : nat) (w w' : World),
    poll_loop env fuel jobId timeout interval startTime w =
    (Throw (NewError (timeout_message timeout)), w') ->
    timeout <= now w' - startTime.
Proof.
  induction fuel as [|fuel IH]; intros w w' H.
  - discriminate.
  - destruct (Z.lt_ge_cases (now w - startTime) timeout) as [Hlt|Hge].
    + rewrite loop_step in H by exact Hlt.
      destruct (poll_attempt env jobId interval w) as [[[v|]|cause|] w2].
      * discriminate.
      * exact (IH _ _ H).
      * destruct (poll_error_message_prefix jobId cause) as [rest Hrest].
        rewrite Hrest in H. discriminate H.
      * discriminate.
    + rewrite loop_exit in H by exact Hge. injection H as <-. exact Hge.
Qed.

(** X2. The timeout error is never early: whatever the backend and the
    timer do, when [pollQueryResults] throws "Query execution timed out
    after <timeout>ms", at least [timeout] milliseconds have passed on the
    clock since the call. *)
Theorem poll_timeout_not_early
    (jobId : JValue) (timeout interval : Z) (fuel : nat) (w w' : World) :
  pollQueryResults env fuel jobId timeout interval w =
  (Throw (NewError (timeout_message timeout)), w') ->
  timeout <= now w' - now w.
Proof.
  unfold pollQueryResults, bind, date_now.
  apply loop_timeout_not_early.
Qed.

Lemma budget_step (timeout interval e e2 : Z) :
  1 <= interval -> e < timeout -> e + interval <= e2 ->
  1 + Z.max 0 ((timeout - e2 + interval - 1) / interval)
  <= Z.max 0 ((timeout - e + interval - 1) / interval).
Proof.
  intros Hi He He2.
  replace (timeout - e + interval - 1) with ((timeout - e - 1) + 1 * interval) by lia.
  rewrite Z.div_add by lia.
  assert (0 <= (timeout - e - 1) / interval) by (apply Z.div_pos; lia).
  assert ((timeout - e2 + interval - 1) / interval <= (timeout - e - 1) / interval)
    by (apply Z.div_le_mono; lia).
  lia.
Qed.

Lemma status_fetches_after_status (jobId : JValue) (w : World) :
  status_fetches jobId (trace (after_request env w (GET (job_url jobId)))) =
  S (status_fetches jobId (trace w)).
Proof.
  unfold status_fetches, count_requests, after_request. cbn [trace filter is_get].
  now rewrite String.eqb_refl.
Qed.

Lemma status_fetches_after_result (jobId rid : JValue) (w : World) :
  status_fetches jobId (trace (after_request env w (GET (result_url rid)))) =
  status_fetches jobId (trace w).
Proof. reflexivity. Qed.

Lemma loop_fetch_bound (jobId : JValue) (timeout interval startTime : Z) :
  (forall (w : World) (r : Request), 0 <= snd (respond env w r)) ->
  (forall w : World, interval <= slept env w interval) ->
  1 <= interval ->
  forall (fuel : nat) (w w' : World) (c : Completion JValue),
    poll_loop env fuel jobId timeout interval startTime w = (c, w') ->
    Z.of_nat (status_fetches jobId (trace w'))
    <= Z.of_nat (status_fetches jobId (trace w))
       + Z.max 0 ((timeout - (now w - startTime) + interval - 1) / interval).
Proof.
  intros Hdur Hsleep Hint.
  induction fuel as [|fuel IH]; intros w w' c H.
  - injection H as _ <-. lia.
  - destruct (Z.lt_ge_cases (now w - startTime) timeout) as [Hlt|Hge].
    + rewrite loop_step in H by exact Hlt.
      set (w1 := after_request env w (GET (job_url jobId))) in *.
      assert (Hw1 : now w1 = now w + snd (respond env w (GET (job_url jobId))))
        by reflexivity.
      pose proof (Hdur w (GET (job_url jobId))) as Hd.
      pose proof (status_fetches_after_status jobId w) as Hc. fold w1 in Hc.
      pose proof (budget_step timeout interval (now w - startTime)
                    (now w - startTime + interval) Hint Hlt (Z.le_refl _)) as Hone.
      destruct (attempt_outcome jobId interval w)
        as [[e He] | [He | (job & _ & _ & _ & He)]]; fold w1 in He; rewrite He in H.
      * injection H as _ <-. lia.
      * apply IH in H. pose proof (Hsleep w1) as Hs.
        assert (Hb := budget_step timeout interval (now w - startTime)
                        (now (after_sleep env w1 interval) - startTime) Hint Hlt).
        unfold after_sleep in H, Hb. cbn [now trace] in H, Hb.
        change (status_fetches jobId (Slept interval :: trace w1))
          with (status_fetches jobId (trace w1)) in H.
        lia.
      * assert (Hw' : status_fetches jobId (trace w') = status_fetches jobId (trace w1)).
        { destruct (fst (respond env w1 _)); injection H as _ <-; reflexivity. }
        lia.
    + rewrite loop_exit in H by exact Hge. injection H as _ <-. lia.
Qed.

(** X3. The number of status fetches is bounded by the timeout: when requests
    take no negative time, the timer is never early and the interval is at
    least a millisecond, one call of [pollQueryResults] sends at most
    ceil(timeout / interval) status fetches (none when the timeout is zero or
    negative), whatever the backend answers. *)
Theorem poll_status_fetches_bounded
    (jobId : JValue) (timeout interval : Z) (fuel : nat) (w w' : World)
    (c : Completion JValue) :
  (forall (w1 : World) (r : Request), 0 <= snd (respond env w1 r)) ->
  (forall w1 : World, interval <= slept env w1 interval) ->
  1 <= interval ->
  pollQueryResults env fuel jobId timeout interval w = (c, w') ->
  Z.of_nat (status_fetches jobId (trace w'))
  <= Z.of_nat (status_fetches jobId (trace w))
     + Z.max 0 ((timeout + interval - 1) / interval).
Proof.
  intros Hdur Hsleep Hint. unfold pollQueryResults, bind, date_now. intros H.
  apply (loop_fetch_bound jobId timeout interval (now w) Hdur Hsleep Hint) in H.
  replace (timeout - (now w - now w) + interval - 1) with (timeout + interval - 1) in H
    by lia.
  exact H.
Qed.

Lemma count_requests_app (p : Request -> bool) (a b : list Event) :
  count_requests p (a ++ b)%list = (count_requests p a + count_requests p b)%nat.
Proof. unfold count_requests. now rewrite filter_app, length_app. Qed.

Lemma poll_events_no_post (jobId : JValue) (interval : Z) (added : list Event) :
  Forall (poll_event jobId interval) added -> count_requests is_post added = 0%nat.
Proof.
  induction 1 as [|e added He _ IH]; [reflexivity|].
  change (e :: added) with (([e] ++ added)%list). rewrite count_requests_app, IH.
  destruct He as [-> | [-> | [rid ->]]]; reflexivity.
Qed.

Lemma loop_trace (jobId : JValue) (timeout interval startTime : Z) :
  forall (fuel : nat) (w w' : World) (c : Completion JValue),
    poll_loop env fuel jobId timeout interval startTime w = (c, w') ->
    exists added : list Event,
      trace w' = (added ++ trace w)%list /\ Forall (poll_event jobId interval) added.
Proof.
  assert (Hjob : poll_event jobId interval (Sent (GET (job_url jobId))))
    by (right; now left).
  assert (Hsl : poll_event jobId interval (Slept interval)) by now left.
  assert (Hres : forall rid, poll_event jobId interval (Sent (GET (result_url rid))))
    by (intros rid; right; right; now exists rid).
  induction fuel as [|fuel IH]; intros w w' c H.
  - injection H as _ <-. now exists [].
  - destruct (Z.lt_ge_cases (now w - startTime) timeout) as [Hlt|Hge].
    + rewrite loop_step in H by exact Hlt.
      destruct (attempt_outcome jobId interval w)
        as [[e He] | [He | (job & _ & _ & _ & He)]]; rewrite He in H.
      * injection H as _ <-. exists [Sent (GET (job_url jobId))]. split; [reflexivity|].
        now constructor.
      * apply IH in H as (added & Ht & Hall).
        exists ((added ++ [Slept interval; Sent (GET (job_url jobId))])%list). split.
        -- rewrite Ht, <- app_assoc. reflexivity.
        -- apply Forall_app. split; [exact Hall|].
           constructor; [exact Hsl | constructor; [exact Hjob | constructor]].
      * exists [Sent (GET (result_url (prop job "query_result_id")));
                Sent (GET (job_url jobId))].
        split.
        -- destruct (fst (respond env _ _)); injection H as _ <-; reflexivity.
        -- constructor; [apply Hres | constructor; [exact Hjob | constructor]].
    + rewrite loop_exit in H by exact Hge. injection H as _ <-. now exists [].
Qed.

Lemma poll_only_reads_trace
    (jobId : JValue) (timeout interval : Z) (fuel : nat) (w w' : World)
    (c : Completion JValue) :
  pollQueryResults env fuel jobId timeout interval w = (c, w') ->
  exists added : list Event,
    trace w' = (added ++ trace w)%list /\ Forall (poll_event jobId interval) added.
Proof. unfold pollQueryResults, bind, date_now. apply loop_trace. Qed.

(** X4. A poll only reads: whatever way [pollQueryResults] ends, the trace it
    leaves is the trace it found with new events in front, each of them the
    timer of the loop, a status fetch for its own job or a fetch of a result;
    it sends no POST. *)
Theorem poll_only_reads
    (jobId : JValue) (timeout interval : Z) (fuel : nat) (w w' : World)
    (c : Completion JValue) :
  pollQueryResults env fuel jobId timeout interval w = (c, w') ->
  exists added : list Event,
    trace w' = (added ++ trace w)%list /\
    Forall (poll_event jobId interval) added /\
    count_requests is_post (trace w') = count_requests is_post (trace w).
Proof.
  unfold pollQueryResults, bind, date_now. intros H.
  apply loop_trace in H as (added & Ht & Hall).
  exists added. repeat split; try assumption.
  rewrite Ht, count_requests_app, (poll_events_no_post _ _ _ Hall). reflexivity.
Qed.

Lemma loop_returns_inv (jobId : JValue) (timeout interval startTime : Z) :
  forall (fuel : nat) (w w' : World) (v : JValue),
    poll_loop env fuel jobId timeout interval startTime w = (Return v, w') ->
    exists (w1 : World) (job : JValue) (resp : Response),
      now w1 - startTime < timeout /\
      reported_job env jobId w1 = Some job /\
      prop job "status" = JNum 3 /\
      truthy (prop job "query_result_id") = true /\
      fst (respond env (after_request env w1 (GET (job_url jobId)))
             (GET (result_url (prop job "query_result_id")))) = Resolved resp /\
      v = data resp /\
      w' = after_request env (after_request env w1 (GET (job_url jobId)))
             (GET (result_url (prop job "query_result_id"))).
Proof.
  induction fuel as [|fuel IH]; intros w w' v H.
  - discriminate.
  - destruct (Z.lt_ge_cases (now w - startTime) timeout) as [Hlt|Hge].
    + rewrite loop_step in H by exact Hlt.
      destruct (attempt_outcome jobId interval w)
        as [[e He] | [He | (job & Hjob & Hs & Hq & He)]]; rewrite He in H.
      * discriminate.
      * exact (IH _ _ _ H).
      * destruct (fst (respond env _ _)) as [resp|message response] eqn:Hr;
          [|discriminate].
        injection H as <- <-. exists w, job, resp. repeat split; assumption.
    + rewrite loop_exit in H by exact Hge. discriminate.
Qed.

(** X5. What a poll returns is always a fetched result: when
    [pollQueryResults] returns a value, some status fetch of the call,
    issued before the timeout, reported status 3 with a truthy
    [query_result_id], the fetch of that result resolved, the value is the
    body of that response and that fetch is the last thing the call did. *)
Theorem poll_returns_only_fetched_results
    (jobId : JValue) (timeout interval : Z) (fuel : nat) (w w' : World)
    (v : JValue) :
  pollQueryResults env fuel jobId timeout interval w = (Return v, w') ->
  exists (w1 : World) (job : JValue) (resp : Response),
    now w1 - now w < timeout /\
    reported_job env jobId w1 = Some job /\
    prop job "status" = JNum 3 /\
    truthy (prop job "query_result_id") = true /\
    fst (respond env (after_request env w1 (GET (job_url jobId)))
           (GET (result_url (prop job "query_result_id")))) = Resolved resp /\
    v = data resp /\
    w' = after_request env (after_request env w1 (GET (job_url jobId)))
           (GET (result_url (prop job "query_result_id"))).
Proof.
  unfold pollQueryResults, bind, date_now. apply loop_returns_inv.
Qed.

End PollerBounds.

(** ** Further properties of the dispatcher *)

Section DispatcherFlow.

Context {RT : JSRuntime}.
Variable env : Env.

Lemma truthy_not_nullish (v : JValue) : truthy v = true -> nullish v = false.
Proof. destruct v; simpl; congruence. Qed.

(** [executeQuery], step by step on the answer to its submission. *)
Lemma executeQuery_run (fuel : nat) (query : string) (dataSourceId : Z)
    (parameters : JValue) (maxAge : option Z) (w : World) :
  executeQuery env fuel query dataSourceId parameters maxAge w =
  let r := POST "/api/query_results" (requestData query dataSourceId parameters maxAge) in
  let w1 := after_request env w r in
  match fst (respond env w r) with
  | Rejected message response =>
      (Throw (NewError ("Failed to execute query: " ++ message)), w1)
  | Resolved resp =>
      if nullish (data resp) then
        (Throw (NewError ("Failed to execute query: "
                            ++ type_error_message (data resp) "job")), w1)
      else if truthy (prop (data resp) "job") then
        match pollQueryResults env fuel (prop (prop (data resp) "job") "id")
                default_timeout default_interval w1 with
        | (Throw e, w') =>
            (Throw (NewError ("Failed to execute query: " ++ message_of e)), w')
        | other => other
        end
      else (Return (prop (data resp) "query_result"), w1)
  end.
Proof.
  cbv zeta. unfold executeQuery, try_catch. unfold bind at 1. unfold client_post.
  rewrite request_run.
  destruct (fst (respond env w _)) as [resp|message response]; [|reflexivity].
  unfold bind at 1. unfold get_prop at 1.
  destruct (nullish (data resp)) eqn:Hd; [reflexivity|]. unfold ret at 1.
  destruct (truthy (prop (data resp) "job")) eqn:Hj.
  - unfold bind at 1. unfold get_prop at 1.
    rewrite (truthy_not_nullish _ Hj). unfold ret at 1.
    destruct (pollQueryResults env fuel _ _ _ _) as [[v|e|] w']; reflexivity.
  - unfold get_prop. rewrite Hd. reflexivity.
Qed.

(** [executeQueryById], step by step on the answer to its submission. *)
Lemma executeQueryById_run (fuel : nat) (queryId : Z) (parameters : JValue)
    (w : World) :
  executeQueryById env fuel queryId parameters w =
  let r := POST (query_results_url queryId) (JObj [("parameters", parameters)]) in
  let w1 := after_request env w r in
  let failure := NewError ("Failed to execute query " ++ ToString (JNum queryId)) in
  match fst (respond env w r) with
  | Rejected message response => (Throw failure, w1)
  | Resolved resp =>
      if nullish (data resp) then (Throw failure, w1)
      else if truthy (prop (data resp) "job") then
        match pollQueryResults env fuel (prop (prop (data resp) "job") "id")
                default_timeout default_interval w1 with
        | (Throw e, w') => (Throw failure, w')
        | other => other
        end
      else (Return (data resp), w1)
  end.
Proof.
  cbv zeta. unfold executeQueryById, try_catch. unfold bind at 1. unfold client_post.
  rewrite request_run.
  destruct (fst (respond env w _)) as [resp|message response]; [|reflexivity].
  unfold bind at 1. unfold get_prop at 1.
  destruct (nullish (data resp)) eqn:Hd; [reflexivity|]. unfold ret at 1.
  destruct (truthy (prop (data resp) "job")) eqn:Hj.
  - unfold bind at 1. unfold get_prop at 1.
    rewrite (truthy_not_nullish _ Hj). unfold ret at 1.
    destruct (pollQueryResults env fuel _ _ _ _) as [[v|e|] w']; reflexivity.
  - reflexivity.
Qed.

(** X6. The asynchronous path end to end: when the submission is answered
    with a job, the status fetches for that job report non-terminal statuses
    and then, within the default timeout, status 3 with a truthy result id,
    and the fetch of that result resolves, [executeQuery] returns the body
    of that last response. *)
Theorem executeQuery_async_returns_result
    (fuel n : nat) (query : string) (dataSourceId : Z) (parameters : JValue)
    (maxAge : option Z) (w w2 : World) (resp result : Response) (job : JValue) :
  fst (respond env w (submission query dataSourceId parameters maxAge))
    = Resolved resp ->
  truthy (prop (data resp) "job") = true ->
  reaches env (announced_job resp) default_timeout default_interval
    (after_request env w (submission query dataSourceId parameters maxAge))
    n w2 job ->
  prop job "status" = JNum 3 ->
  truthy (prop job "query_result_id") = true ->
  fst (respond env (after_request env w2 (GET (job_url (announced_job resp))))
         (GET (result_url (prop job "query_result_id")))) = Resolved result ->
  (n < fuel)%nat ->
  executeQuery env fuel query dataSourceId parameters maxAge w =
  (Return (data result),
   after_request env (after_request env w2 (GET (job_url (announced_job resp))))
     (GET (result_url (prop job "query_result_id")))).
Proof.
  unfold submission, announced_job.
  intros Hr Hj (Hn & Hlt & Hjob) Hs Hq Hres Hfuel.
  rewrite executeQuery_run. cbv zeta. rewrite Hr.
  assert (Hd : nullish (data resp) = false).
  { destruct (data resp); try reflexivity; discriminate Hj. }
  rewrite Hd, Hj.
  rewrite (poll_decided_after env n _ _ _ _ w2) by assumption.
  rewrite (attempt_completed_fetches env _ _ _ _ Hjob Hs Hq), Hres. reflexivity.
Qed.

(** X7. A failed job seen through [executeQuery]: when the submission is
    answered with a job and a status fetch reports status 4 with error text
    [m], [executeQuery] throws an error whose message is "Failed to execute
    query: Failed to poll for query results (job J): Query execution failed: "
    followed by [m]: the backend's text reaches the caller. *)
Theorem executeQuery_job_failure_keeps_error_text
    (fuel n : nat) (query : string) (dataSourceId : Z) (parameters : JValue)
    (maxAge : option Z) (w w2 : World) (resp : Response) (job : JValue)
    (m : string) :
  fst (respond env w (submission query dataSourceId parameters maxAge))
    = Resolved resp ->
  truthy (prop (data resp) "job") = true ->
  reaches env (announced_job resp) default_timeout default_interval
    (after_request env w (submission query dataSourceId parameters maxAge))
    n w2 job ->
  prop job "status" = JNum 4 ->
  prop job "error" = JStr m ->
  (n < fuel)%nat ->
  exists msg : string,
    executeQuery env fuel query dataSourceId parameters maxAge w =
    (Throw (NewError msg), after_request env w2 (GET (job_url (announced_job resp)))) /\
    msg = "Failed to execute query: " ++ poll_prefix (announced_job resp)
            ++ ": Query execution failed: " ++ m /\
    includes msg m = true.
Proof.
  unfold submission, announced_job.
  intros Hr Hj (Hn & Hlt & Hjob) Hs He Hfuel.
  assert (Hd : nullish (data resp) = false).
  { destruct (data resp); try reflexivity; discriminate Hj. }
  eexists. split; [|split; [reflexivity|]].
  - rewrite executeQuery_run. cbv zeta. rewrite Hr, Hd, Hj.
    rewrite (poll_decided_after env n _ _ _ _ w2) by assumption.
    rewrite (attempt_failed env _ _ _ _ Hjob Hs), He. reflexivity.
  - unfold poll_prefix. repeat apply includes_skip. apply includes_refl.
Qed.

(** X8. The same failed job seen through [executeQueryById]: the error it
    throws is "Failed to execute query <queryId>" and nothing more; the
    backend's error text [m] and the job id are not in it. *)
Theorem executeQueryById_job_failure_drops_error_text
    (fuel n : nat) (queryId : Z) (parameters : JValue)
    (w w2 : World) (resp : Response) (job : JValue) (m : string) :
  fst (respond env w (submission_by_id queryId parameters)) = Resolved resp ->
  truthy (prop (data resp) "job") = true ->
  reaches env (announced_job resp) default_timeout default_interval
    (after_request env w (submission_by_id queryId parameters)) n w2 job ->
  prop job "status" = JNum 4 ->
  prop job "error" = JStr m ->
  (n < fuel)%nat ->
  executeQueryById env fuel queryId parameters w =
  (Throw (NewError ("Failed to execute query " ++ ToString (JNum queryId))),
   after_request env w2 (GET (job_url (announced_job resp)))).
Proof.
  unfold submission_by_id, announced_job.
  intros Hr Hj (Hn & Hlt & Hjob) Hs He Hfuel.
  assert (Hd : nullish (data resp) = false).
  { destruct (data resp); try reflexivity; discriminate Hj. }
  rewrite executeQueryById_run. cbv zeta. rewrite Hr, Hd, Hj.
  rewrite (poll_decided_after env n _ _ _ _ w2) by assumption.
  rewrite (attempt_failed env _ _ _ _ Hjob Hs). reflexivity.
Qed.

(** X9. Nothing escapes [executeQuery] unwrapped: every error it throws is
    a plain [Error] whose message starts with "Failed to execute query: ",
    be the cause a rejected submission, an unreadable body or anything the
    poll threw (the timeout error included). *)
Theorem executeQuery_errors_are_wrapped
    (fuel : nat) (query : string) (dataSourceId : Z) (parameters : JValue)
    (maxAge : option Z) (w w' : World) (e : Thrown) :
  executeQuery env fuel query dataSourceId parameters maxAge w = (Throw e, w') ->
  exists cause : string, e = NewError ("Failed to execute query: " ++ cause).
Proof.
  intros H. rewrite executeQuery_run in H. cbv zeta in H.
  destruct (fst (respond env w _)) as [resp|message response].
  - destruct (nullish (data resp)); cbv iota in H;
      [injection H as <- _; eexists; reflexivity|].
    destruct (truthy (prop (data resp) "job")); cbv iota in H; [|discriminate H].
    destruct (pollQueryResults env fuel _ _ _ _) as [[v|e0|] w0];
      try discriminate H. injection H as <- _. eexists; reflexivity.
  - injection H as <- _. eexists; reflexivity.
Qed.

Lemma submitted_once (r : Request) (w w1 w' : World) (jobId : JValue)
    (timeout interval : Z) (fuel : nat) (c : Completion JValue) :
  is_post r = true ->
  w1 = after_request env w r ->
  pollQueryResults env fuel jobId timeout interval w1 = (c, w') ->
  exists added : list Event,
    trace w' = (added ++ Sent r :: trace w)%list /\
    count_requests is_post added = 0%nat.
Proof.
  intros Hp -> H.
  destruct (poll_only_reads_trace env jobId timeout interval fuel _ _ _ H)
    as (added & Ht & Hall).
  exists added. split; [exact Ht|]. exact (poll_events_no_post _ _ _ Hall).
Qed.

(** X10. One submission per call of [executeQuery]: however it ends, the
    trace it leaves is the trace it found, then its POST, then events among
    which there is no POST; the submission is the first thing sent and is
    sent exactly once. *)
Theorem executeQuery_submits_once
    (fuel : nat) (query : string) (dataSourceId : Z) (parameters : JValue)
    (maxAge : option Z) (w w' : World) (c : Completion JValue) :
  executeQuery env fuel query dataSourceId parameters maxAge w = (c, w') ->
  exists added : list Event,
    trace w' =
    (added ++ Sent (submission query dataSourceId parameters maxAge) :: trace w)%list /\
    count_requests is_post added = 0%nat.
Proof.
  unfold submission. intros H. rewrite executeQuery_run in H. cbv zeta in H.
  destruct (fst (respond env w _)) as [resp|message response].
  - destruct (nullish (data resp)); cbv iota in H;
      [injection H as _ <-; now exists []|].
    destruct (truthy (prop (data resp) "job")); cbv iota in H;
      [|injection H as _ <-; now exists []].
    destruct (pollQueryResults env fuel _ _ _ _) as [c0 w0] eqn:Hp.
    assert (w0 = w') as -> by (destruct c0; now injection H).
    exact (submitted_once (POST _ _) w _ w' _ _ _ _ _ eq_refl eq_refl Hp).
  - injection H as _ <-. now exists [].
Qed.

(** X11. One submission per call of [executeQueryById], in the same sense. *)
Theorem executeQueryById_submits_once
    (fuel : nat) (queryId : Z) (parameters : JValue) (w w' : World)
    (c : Completion JValue) :
  executeQueryById env fuel queryId parameters w = (c, w') ->
  exists added : list Event,
    trace w' = (added ++ Sent (submission_by_id queryId parameters) :: trace w)%list /\
    count_requests is_post added = 0%nat.
Proof.
  unfold submission_by_id. intros H. rewrite executeQueryById_run in H. cbv zeta in H.
  destruct (fst (respond env w _)) as [resp|message response].
  - destruct (nullish (data resp)); cbv iota in H;
      [injection H as _ <-; now exists []|].
    destruct (truthy (prop (data resp) "job")); cbv iota in H;
      [|injection H as _ <-; now exists []].
    destruct (pollQueryResults env fuel _ _ _ _) as [c0 w0] eqn:Hp.
    assert (w0 = w') as -> by (destruct c0; now injection H).
    exact (submitted_once (POST _ _) w _ w' _ _ _ _ _ eq_refl eq_refl Hp).
  - injection H as _ <-. now exists [].
Qed.

(** X12. A 2xx body that holds neither a job nor a [query_result] is not an
    error for [executeQuery]: when the body is not [null] and its [job] and
    [query_result] members are both missing (an empty object, a string, a
    number), the call returns [undefined] after its single request. *)
Theorem executeQuery_returns_undefined_on_empty_body
    (fuel : nat) (query : string) (dataSourceId : Z) (parameters : JValue)
    (maxAge : option Z) (w : World) (resp : Response) :
  fst (respond env w (submission query dataSourceId parameters maxAge))
    = Resolved resp ->
  nullish (data resp) = false ->
  prop (data resp) "job" = JUndefined ->
  prop (data resp) "query_result" = JUndefined ->
  executeQuery env fuel query dataSourceId parameters maxAge w =
  (Return JUndefined,
   after_request env w (submission query dataSourceId parameters maxAge)).
Proof.
  unfold submission. intros Hr Hd Hj Hq. rewrite executeQuery_run. cbv zeta.
  rewrite Hr, Hd, Hj, Hq. reflexivity.
Qed.

End DispatcherFlow.

(** ** Properties of the other methods *)

Section CrudFacts.

Context {RT : JSRuntime}.
Variable env : Env.
Variable axios_request : Thrown -> bool.

Lemma assoc_assign_same (fields : list (string * JValue)) (k : string) (v : JValue) :
  assoc k (assign fields k v) = Some v.
Proof.
  induction fields as [|[k' v'] rest IH]; simpl.
  - now rewrite String.eqb_refl.
  - destruct (String.eqb k' k) eqn:E; simpl.
    + now rewrite String.eqb_refl.
    + now rewrite E.
Qed.

Lemma assoc_assign_other (fields : list (string * JValue)) (k k0 : string)
    (v : JValue) :
  String.eqb k k0 = false ->
  assoc k0 (assign fields k v) = assoc k0 fields.
Proof.
  intros Hne. induction fields as [|[k' v'] rest IH]; simpl.
  - now rewrite Hne.
  - destruct (String.eqb k' k) eqn:E; simpl.
    + apply String.eqb_eq in E. subst k'. now rewrite Hne.
    + now rewrite IH.
Qed.

Lemma copied_members (queryData : JValue) (k0 : string) :
  forall (names : list string) (requestData : list (string * JValue)),
    assoc k0
      (List.fold_left (fun rd k => copy_if_defined queryData k rd) names requestData) =
    if existsb (fun k => String.eqb k k0) names && negb (is_undefined (prop queryData k0))
    then Some (prop queryData k0)
    else assoc k0 requestData.
Proof.
  induction names as [|k names IH]; intros requestData; [reflexivity|].
  cbn [List.fold_left existsb]. rewrite IH. unfold copy_if_defined.
  destruct (String.eqb k k0) eqn:E.
  - apply String.eqb_eq in E. subst k0.
    destruct (is_undefined (prop queryData k)) eqn:U; cbn [orb negb andb].
    + now rewrite andb_false_r.
    + rewrite assoc_assign_same. now destruct (existsb _ names).
  - cbn [orb].
    destruct (is_undefined (prop queryData k)); [reflexivity|].
    now rewrite assoc_assign_other.
Qed.

(** X13. [updateQuery] sends what it is given and nothing else: a member of
    the posted body is one of the nine updatable members that is not
    [undefined] in the argument, with the value it has there ([null],
    [false], 0 and the empty string included); every other member of the
    argument is dropped, and a member that is not given is not sent. *)
Theorem update_query_data_members (queryData : JValue) (k : string) :
  assoc k (update_query_data queryData) =
  if existsb (fun name => String.eqb name k) update_query_fields
     && negb (is_undefined (prop queryData k))
  then Some (prop queryData k)
  else None.
Proof. unfold update_query_data. now rewrite copied_members. Qed.

Lemma createQuery_run (queryData : JValue) (w : World) :
  nullish queryData = false ->
  createQuery env axios_request queryData w =
  let r := POST "/api/queries" (create_query_data queryData) in
  (match fst (respond env w r) with
   | Resolved resp =>
       if nullish (data resp)
       then Throw (NewError ("Failed to create query: "
                               ++ type_error_message (data resp) "id"))
       else Return (data resp)
   | Rejected message response =>
       Throw (NewError ("Failed to create query: "
                          ++ message_of (api_error axios_request (AxiosError message response))))
   end, after_request env w r).
Proof.
  intros Hq. cbv zeta. unfold createQuery, try_catch.
  unfold bind at 1. unfold get_prop at 1. rewrite Hq. unfold ret at 1.
  unfold bind at 1. unfold client_post. rewrite request_run.
  destruct (fst (respond env w _)) as [resp|message response]; [|reflexivity].
  unfold bind, get_prop. destruct (nullish (data resp)); reflexivity.
Qed.

(** X14. [createQuery] tells the caller what the server said: when the POST
    is answered outside 2xx, the error thrown has the message "Failed to
    create query: Redash API error (<status>): <body as JSON>"; when no
    response arrives and the axios error has its [request], "Failed to
    create query: No response received from Redash API: <axios message>";
    when axios gave up before sending (no response, no [request]), the axios
    error is rethrown as it is and the message is "Failed to create query:
    <axios message>".  The POST is the only call to the axios instance. *)
Theorem createQuery_rejection_classified
    (queryData : JValue) (w : World) (message : string) (response : option Response) :
  nullish queryData = false ->
  fst (respond env w (POST "/api/queries" (create_query_data queryData)))
    = Rejected message response ->
  createQuery env axios_request queryData w =
  (Throw (NewError
            ("Failed to create query: " ++
             match response with
             | Some resp =>
                 "Redash API error (" ++ ToString (JNum (status resp)) ++ "): "
                   ++ JSON_stringify (data resp)
             | None =>
                 if axios_request (AxiosError message None)
                 then "No response received from Redash API: " ++ message
                 else message
             end)),
   after_request env w (POST "/api/queries" (create_query_data queryData))).
Proof.
  intros Hq Hr. rewrite createQuery_run by exact Hq. cbv zeta. rewrite Hr.
  destruct response; [reflexivity|].
  unfold api_error, request_of. cbn [response_of].
  destruct (axios_request (AxiosError message None)); reflexivity.
Qed.

(** X15. [createQuery] can fail after the query was created: when the POST
    is answered 2xx with a [null] body, the line that logs
    [response.data.id] raises a [TypeError], which the call rethrows as
    "Failed to create query: <message of the TypeError>", although the
    request went out and was accepted. *)
Theorem createQuery_null_body_after_success
    (queryData : JValue) (w : World) (resp : Response) :
  nullish queryData = false ->
  fst (respond env w (POST "/api/queries" (create_query_data queryData)))
    = Resolved resp ->
  nullish (data resp) = true ->
  createQuery env axios_request queryData w =
  (Throw (NewError ("Failed to create query: " ++ type_error_message (data resp) "id")),
   after_request env w (POST "/api/queries" (create_query_data queryData))).
Proof.
  intros Hq Hr Hd. rewrite createQuery_run by exact Hq. cbv zeta.
  now rewrite Hr, Hd.
Qed.

Lemma defined_or_idem (v d : JValue) :
  is_undefined d = false -> defined_or (defined_or v d) d = defined_or v d.
Proof. destruct v; destruct d; simpl; congruence. Qed.

Lemma js_or_idem (v d : JValue) :
  truthy d = true -> js_or (js_or v d) d = js_or v d.
Proof.
  intros Hd. unfold js_or. destruct (truthy v) eqn:E; [now rewrite E | now rewrite Hd].
Qed.

(** X16. Completing a position is idempotent: a position that
    [createWidget] has completed is left as it is by a second completion. *)
Theorem normalize_position_idempotent (pos : JValue) :
  normalize_position (normalize_position pos) = normalize_position pos.
Proof.
  unfold normalize_position at 1.
  assert (Hp : forall k, prop (normalize_position pos) k
                         = match assoc k match normalize_position pos with
                                         | JObj fields => fields
                                         | _ => []
                                         end with
                           | Some x => x
                           | None => JUndefined
                           end) by reflexivity.
  rewrite !Hp. cbn [normalize_position assoc String.eqb Ascii.eqb Bool.eqb].
  rewrite !defined_or_idem, !js_or_idem by reflexivity. reflexivity.
Qed.

Lemma prop_assign_same (fields : list (string * JValue)) (k : string) (v : JValue) :
  prop (JObj (assign fields k v)) k = v.
Proof. cbn [prop]. now rewrite assoc_assign_same. Qed.

Lemma prop_assign_other (fields : list (string * JValue)) (k k0 : string) (v : JValue) :
  String.eqb k k0 = false ->
  prop (JObj (assign fields k v)) k0 = prop (JObj fields) k0.
Proof. intros H. cbn [prop]. now rewrite assoc_assign_other. Qed.

Lemma widget_options_position (has_text : bool) (options : list (string * JValue)) :
  prop (JObj (widget_options has_text options)) "position" =
  if truthy (prop (JObj options) "position")
  then normalize_position (prop (JObj options) "position")
  else if has_text then normalize_position default_position
  else prop (JObj options) "position".
Proof.
  unfold widget_options.
  destruct (truthy (prop (JObj options) "position")) eqn:Hp; cbn [negb andb].
  - rewrite Hp.
    destruct (is_undefined _);
      rewrite ?prop_assign_other by reflexivity; now rewrite prop_assign_same.
  - destruct has_text.
    + rewrite prop_assign_same. cbn [default_position truthy].
      destruct (is_undefined _);
        rewrite ?prop_assign_other by reflexivity; now rewrite prop_assign_same.
    + rewrite Hp.
      destruct (is_undefined _); rewrite ?prop_assign_other by reflexivity; reflexivity.
Qed.

Lemma widget_options_hidden (has_text : bool) (options : list (string * JValue)) :
  prop (JObj (widget_options has_text options)) "isHidden" =
  defined_or (prop (JObj options) "isHidden") (JBool false).
Proof.
  unfold widget_options.
  destruct (negb (truthy (prop (JObj options) "position")) && has_text);
    destruct (truthy (prop (JObj _) "position"));
    destruct (is_undefined (prop (JObj _) "isHidden")) eqn:U;
    rewrite ?prop_assign_same;
    rewrite ?prop_assign_other in * by reflexivity;
    destruct (prop (JObj options) "isHidden"); simpl in *; congruence.
Qed.

Lemma widget_options_other (has_text : bool) (options : list (string * JValue))
    (k : string) :
  String.eqb "position" k = false ->
  String.eqb "isHidden" k = false ->
  prop (JObj (widget_options has_text options)) k = prop (JObj options) k.
Proof.
  intros Hp Hh. unfold widget_options.
  destruct (negb (truthy (prop (JObj options) "position")) && has_text);
    destruct (truthy (prop (JObj _) "position"));
    destruct (is_undefined (prop (JObj _) "isHidden"));
    rewrite ?prop_assign_other by assumption; reflexivity.
Qed.

(** X17. A widget with text, or with neither text nor visualization, is
    created as a text widget: the body posted has the given text (the empty
    string when none is given), [visualization_id: null] even when a
    visualization id was given along with the text, and a complete position,
    the completion of the given one or of the default one. *)
Theorem create_widget_text_wins (widgetData : CreateWidgetRequest.t) :
  CreateWidgetRequest.text widgetData <> JUndefined \/
  CreateWidgetRequest.visualization_id widgetData = JUndefined ->
  let body := create_widget_data widgetData in
  prop body "text" = defined_or (CreateWidgetRequest.text widgetData) (JStr EmptyString) /\
  prop body "visualization_id" = JNull /\
  prop (prop body "options") "position" =
  normalize_position
    (js_or (prop (JObj (given_options widgetData)) "position") default_position).
Proof.
  intros H body. subst body. unfold create_widget_data, widget_kind.
  assert (Hpos : prop (JObj (widget_options true (given_options widgetData))) "position"
                 = normalize_position
                     (js_or (prop (JObj (given_options widgetData)) "position")
                        default_position)).
  { rewrite widget_options_position. unfold js_or.
    now destruct (truthy (prop (JObj (given_options widgetData)) "position")). }
  destruct (CreateWidgetRequest.text widgetData) eqn:Ht;
    try (split; [reflexivity | split; [reflexivity | exact Hpos]]).
  destruct H as [H|H]; [now elim H|]. rewrite H.
  split; [reflexivity | split; [reflexivity | exact Hpos]].
Qed.

(** X18. A widget with a visualization and no text is created as it is
    given: the body posted has the visualization id and no [text] member, and
    no position is made up for it (a position that is given is completed, a
    missing one stays missing). *)
Theorem create_widget_chart_keeps_layout (widgetData : CreateWidgetRequest.t) :
  CreateWidgetRequest.text widgetData = JUndefined ->
  CreateWidgetRequest.visualization_id widgetData <> JUndefined ->
  let body := create_widget_data widgetData in
  let given := prop (JObj (given_options widgetData)) "position" in
  prop body "text" = JUndefined /\
  prop body "visualization_id" = CreateWidgetRequest.visualization_id widgetData /\
  prop (prop body "options") "position" =
  if truthy given then normalize_position given else given.
Proof.
  intros Ht Hv body given. subst body given. unfold create_widget_data, widget_kind.
  rewrite Ht.
  pose proof (widget_options_position false (given_options widgetData)) as Hpos.
  destruct (CreateWidgetRequest.visualization_id widgetData) eqn:E;
    [now elim Hv | | | | | | ];
    (split; [reflexivity | split; [reflexivity | exact Hpos]]).
Qed.

(** X19. Whatever widget is asked for, the body [createWidget] posts has a
    truthy width (1 when none or 0 is given), an [isHidden] option that is
    defined ([false] unless given), and every other option as given, the
    position apart. *)
Theorem create_widget_options_kept (widgetData : CreateWidgetRequest.t) (k : string) :
  let body := create_widget_data widgetData in
  let given := JObj (given_options widgetData) in
  truthy (prop body "width") = true /\
  prop (prop body "options") "isHidden" = defined_or (prop given "isHidden") (JBool false) /\
  (String.eqb "position" k = false -> String.eqb "isHidden" k = false ->
   prop (prop body "options") k = prop given k).
Proof.
  intros body given. subst body given. unfold create_widget_data.
  set (has_text := negb _).
  repeat split.
  - cbn [prop assoc app String.eqb Ascii.eqb Bool.eqb]. unfold js_or.
    now destruct (truthy (CreateWidgetRequest.width widgetData)) eqn:E.
  - exact (widget_options_hidden has_text (given_options widgetData)).
  - intros Hp Hh. exact (widget_options_other has_text (given_options widgetData) k Hp Hh).
Qed.

Lemma update_widget_options_shape (fields : list (string * JValue)) :
  exists o : list (string * JValue),
    update_widget_options (JObj fields) = JObj o /\
    truthy (prop (JObj o) "parameterMappings") = true /\
    prop (JObj o) "isHidden" = defined_or (prop (JObj fields) "isHidden") (JBool false) /\
    forall k : string,
      String.eqb "parameterMappings" k = false -> String.eqb "isHidden" k = false ->
      prop (JObj o) k = prop (JObj fields) k.
Proof.
  unfold update_widget_options.
  destruct (truthy (prop (JObj fields) "parameterMappings")) eqn:Hp;
    destruct (is_undefined (prop (JObj _) "isHidden")) eqn:Hh;
    rewrite ?prop_assign_other in Hh by reflexivity;
    eexists; (split; [reflexivity|]); (split; [|split]);
    try (intros k H1 H2);
    rewrite ?prop_assign_same; rewrite ?prop_assign_other by (reflexivity || assumption);
    rewrite ?prop_assign_same; rewrite ?Hp;
    try reflexivity;
    destruct (prop (JObj fields) "isHidden"); simpl in *; congruence.
Qed.

(** X20. Completing the options of an update is idempotent and keeps what is
    given: after [updateWidget]'s step an options object has a truthy
    [parameterMappings] and a defined [isHidden], every other member is as it
    was, and taking the step again changes nothing. *)
Theorem update_widget_options_complete (fields : list (string * JValue)) (k : string) :
  let options := update_widget_options (JObj fields) in
  truthy (prop options "parameterMappings") = true /\
  prop options "isHidden" = defined_or (prop (JObj fields) "isHidden") (JBool false) /\
  (String.eqb "parameterMappings" k = false -> String.eqb "isHidden" k = false ->
   prop options k = prop (JObj fields) k) /\
  update_widget_options options = options.
Proof.
  intros options. subst options.
  destruct (update_widget_options_shape fields) as (o & -> & Hp & Hh & Hk).
  repeat split; try assumption.
  - apply Hk.
  - unfold update_widget_options. rewrite Hp, Hh.
    now destruct (prop (JObj fields) "isHidden").
Qed.

Lemma updateWidget_run (widgetId : Z) (widgetData : UpdateWidgetRequest.t) (w : World) :
  updateWidget env axios_request widgetId widgetData w =
  let fetch := GET (widget_url widgetId) in
  let w1 := after_request env w fetch in
  let failed (e : Thrown) :=
    Throw (NewError ("Failed to update widget " ++ ToString (JNum widgetId) ++ ": "
                       ++ message_of e)) in
  match fst (respond env w fetch) with
  | Rejected message response =>
      (failed (widget_api_error axios_request (AxiosError message response)), w1)
  | Resolved current =>
      if nullish (data current)
      then (failed (NewError (type_error_message (data current) "dashboard_id")), w1)
      else
        let send := POST (widget_url widgetId)
                      (update_widget_data widgetId widgetData (data current)) in
        (match fst (respond env w1 send) with
         | Resolved resp => Return (data resp)
         | Rejected message response =>
             failed (widget_api_error axios_request (AxiosError message response))
         end, after_request env w1 send)
  end.
Proof.
  cbv zeta. unfold updateWidget, try_catch. unfold bind at 1. unfold client_get.
  rewrite request_run.
  destruct (fst (respond env w _)) as [current|message response]; [|reflexivity].
  unfold bind at 1. unfold get_prop at 1.
  destruct (nullish (data current)); [reflexivity|]. unfold ret at 1.
  unfold bind, client_post. rewrite request_run.
  destruct (fst (respond env _ _)); reflexivity.
Qed.

(** X21. [updateWidget] reads before it writes, and writes nothing when the
    read fails: when the GET of the widget is rejected, the call throws
    "Failed to update widget <id>: " followed by the classified cause, and
    the GET is the only request it has sent. *)
Theorem updateWidget_fetch_failure_posts_nothing
    (widgetId : Z) (widgetData : UpdateWidgetRequest.t) (w : World)
    (message : string) (response : option Response) :
  fst (respond env w (GET (widget_url widgetId))) = Rejected message response ->
  exists w' : World,
    updateWidget env axios_request widgetId widgetData w =
    (Throw (NewError ("Failed to update widget " ++ ToString (JNum widgetId) ++ ": "
                        ++ message_of (widget_api_error axios_request (AxiosError message response)))),
     w') /\
    trace w' = Sent (GET (widget_url widgetId)) :: trace w /\
    count_requests is_post (trace w') = count_requests is_post (trace w).
Proof.
  intros Hr. eexists. split; [|split].
  - rewrite updateWidget_run. cbv zeta. rewrite Hr. reflexivity.
  - reflexivity.
  - reflexivity.
Qed.

(** X22. An update cannot move a widget or change what it shows: when the
    GET of the widget resolves with a body that is not [null], the call
    posts, right after it, a body whose [id] is the widget id and whose
    [dashboard_id] and [visualization_id] ([null] when falsy) are those the
    server returned, whatever the arguments; a width or text that is not
    given is the stored one. *)
Theorem updateWidget_keeps_identity
    (widgetId : Z) (widgetData : UpdateWidgetRequest.t) (w w' : World)
    (current : Response) (c : Completion JValue) :
  fst (respond env w (GET (widget_url widgetId))) = Resolved current ->
  nullish (data current) = false ->
  updateWidget env axios_request widgetId widgetData w = (c, w') ->
  exists body : JValue,
    trace w' =
    Sent (POST (widget_url widgetId) body) :: Sent (GET (widget_url widgetId)) :: trace w /\
    prop body "id" = JNum widgetId /\
    prop body "dashboard_id" = prop (data current) "dashboard_id" /\
    prop body "visualization_id" = js_or (prop (data current) "visualization_id") JNull /\
    (UpdateWidgetRequest.width widgetData = JUndefined ->
     prop body "width" = prop (data current) "width") /\
    (UpdateWidgetRequest.text widgetData = JUndefined ->
     prop body "text" = js_or (prop (data current) "text") (JStr EmptyString)).
Proof.
  intros Hr Hd H. rewrite updateWidget_run in H. cbv zeta in H.
  rewrite Hr, Hd in H. injection H as _ <-.
  exists (update_widget_data widgetId widgetData (data current)).
  split; [reflexivity|]. unfold update_widget_data.
  repeat split; try reflexivity.
  - intros ->. reflexivity.
  - intros ->. reflexivity.
Qed.

End CrudFacts.

(** ** Properties of the configuration *)

Section ConfigurationFacts.

Variable parseInt : string -> option Z.

Lemma or_empty_is_empty (x : option string) :
  String.eqb (or_empty x) EmptyString = negb (nonempty x).
Proof. destruct x as [t|]; simpl; [now rewrite negb_involutive | reflexivity]. Qed.

Lemma nonempty_str_or (a b : option string) :
  nonempty (str_or a b) = nonempty a || nonempty b.
Proof. unfold str_or. now destruct (nonempty a) eqn:E. Qed.

Lemma str_or_nonempty_left (a b : option string) :
  nonempty a = true -> str_or (str_or a b) b = str_or a b.
Proof. intros H. unfold str_or. now rewrite H, H. Qed.

Lemma constructor_succeeds (url key : option string) (timeout : option Z)
    (flag : option bool) (env : ProcessEnv) :
  nonempty (str_or url (REDASH_URL env)) = true ->
  nonempty (str_or key (REDASH_API_KEY env)) = true ->
  exists client : RedashClient,
    constructor parseInt url key timeout flag env = inr client /\
    baseUrl client = or_empty (str_or url (REDASH_URL env)) /\
    apiKey client = or_empty (str_or key (REDASH_API_KEY env)) /\
    rejectUnauthorized client =
    match flag with
    | Some given => given
    | None =>
        negb (is_string (NODE_TLS_REJECT_UNAUTHORIZED env) "0"
              || is_string (REDASH_IGNORE_SSL_ERRORS env) "true")
    end /\
    (forall t : Z, timeout = Some t -> t <> 0 -> timeoutMs client = Some t).
Proof.
  intros Hu Hk. unfold constructor. cbv zeta.
  rewrite !or_empty_is_empty, Hu, Hk. cbn [negb orb].
  eexists. split; [reflexivity|]. cbn [baseUrl apiKey rejectUnauthorized timeoutMs].
  repeat split.
  - destruct flag; [reflexivity|].
    destruct (is_string (NODE_TLS_REJECT_UNAUTHORIZED env) "0"); [reflexivity|].
    now destruct (is_string (REDASH_IGNORE_SSL_ERRORS env) "true").
  - intros t -> Ht. apply Z.eqb_neq in Ht. now rewrite Ht.
Qed.

Lemma constructor_fails (url key : option string) (timeout : option Z)
    (flag : option bool) (env : ProcessEnv) :
  nonempty (str_or url (REDASH_URL env)) && nonempty (str_or key (REDASH_API_KEY env))
    = false ->
  exists e : Thrown, constructor parseInt url key timeout flag env = inl e.
Proof.
  intros H. unfold constructor. cbv zeta. rewrite !or_empty_is_empty.
  apply andb_false_iff in H as [H|H]; rewrite H; cbn [negb orb];
    [|rewrite orb_true_r]; eauto.
Qed.

(** X23. A handler that passes its own check always gets a client, and the
    command line decides everything it can: when a URL and a key are there
    (option or environment variable, the option first), the first lines of a
    handler end with a client that has that URL and that key, is stored in
    the module variable, uses the [--redash-timeout] given when it is not 0,
    and verifies certificates exactly when [--ignore-ssl-errors] is not set:
    [NODE_TLS_REJECT_UNAUTHORIZED] and [REDASH_IGNORE_SSL_ERRORS] are not
    consulted on this path. *)
Theorem handler_prelude_ready
    (argv : Argv) (env : ProcessEnv) (redashClient : option RedashClient) :
  nonempty (str_or (redash_url argv) (REDASH_URL env)) = true ->
  nonempty (str_or (redash_api_key argv) (REDASH_API_KEY env)) = true ->
  exists client : RedashClient,
    handler_prelude parseInt argv env redashClient = (Ready client, Some client) /\
    baseUrl client = or_empty (str_or (redash_url argv) (REDASH_URL env)) /\
    apiKey client = or_empty (str_or (redash_api_key argv) (REDASH_API_KEY env)) /\
    rejectUnauthorized client =
    negb (match ignore_ssl_errors argv with Some flag => flag | None => false end) /\
    (forall t : Z, redash_timeout argv = Some t -> t <> 0 -> timeoutMs client = Some t).
Proof.
  intros Hu Hk. unfold handler_prelude. cbv zeta. rewrite Hu, Hk. cbn [negb orb].
  assert (Hu' : nonempty (str_or (str_or (redash_url argv) (REDASH_URL env))
                            (REDASH_URL env)) = true)
    by (unfold str_or at 1; now rewrite Hu).
  assert (Hk' : nonempty (str_or (str_or (redash_api_key argv) (REDASH_API_KEY env))
                            (REDASH_API_KEY env)) = true)
    by (unfold str_or at 1; now rewrite Hk).
  destruct (constructor_succeeds _ _ (redash_timeout argv)
              (Some (negb (match ignore_ssl_errors argv with
                           | Some flag => flag
                           | None => false
                           end))) env Hu' Hk')
    as (client & Hc & Hb & Ha & Hr & Ht).
  unfold initializeRedashClient. rewrite Hc. cbn [getRedashClient].
  exists client. repeat split; try assumption.
  - rewrite Hb. unfold str_or at 1. now rewrite Hu.
  - rewrite Ha. unfold str_or at 1. now rewrite Hk.
Qed.

(** X24. The rule for certificate verification when the constructor is
    called without the flag: the client verifies certificates unless
    [NODE_TLS_REJECT_UNAUTHORIZED] is exactly "0" or
    [REDASH_IGNORE_SSL_ERRORS] is exactly "true"; with the flag, the flag
    alone decides. *)
Theorem constructor_tls_verification
    (url key : option string) (timeout : option Z) (flag : option bool)
    (env : ProcessEnv) (client : RedashClient) :
  constructor parseInt url key timeout flag env = inr client ->
  match flag with
  | Some given => rejectUnauthorized client = given
  | None =>
      rejectUnauthorized client = false <->
      NODE_TLS_REJECT_UNAUTHORIZED env = Some "0" \/
      REDASH_IGNORE_SSL_ERRORS env = Some "true"
  end.
Proof.
  unfold constructor. cbv zeta.
  destruct (_ || _); [discriminate|]. intros [= <-]. cbn [rejectUnauthorized].
  destruct flag as [given|]; [reflexivity|].
  assert (Hs : forall (x : option string) (t : string),
             is_string x t = true <-> x = Some t).
  { intros [y|] t; simpl; [|split; discriminate].
    rewrite String.eqb_eq. split; [now intros -> | now intros [= ->]]. }
  destruct (is_string (NODE_TLS_REJECT_UNAUTHORIZED env) "0") eqn:E1.
  - apply Hs in E1. tauto.
  - destruct (is_string (REDASH_IGNORE_SSL_ERRORS env) "true") eqn:E2.
    + apply Hs in E2. tauto.
    + split; [discriminate|]. intros [H|H]; apply Hs in H; congruence.
Qed.

(** X25. A failed initialisation leaves the previous client in use: when
    [initializeRedashClient] is called without a usable URL or key, it
    throws, the module variable keeps its value, and [getRedashClient]
    goes on returning the client stored before. *)
Theorem initialize_failure_keeps_client
    (url key : option string) (timeout : option Z) (flag : option bool)
    (env : ProcessEnv) (previous : RedashClient) :
  nonempty (str_or url (REDASH_URL env)) && nonempty (str_or key (REDASH_API_KEY env))
    = false ->
  exists e : Thrown,
    initializeRedashClient parseInt url key timeout flag env (Some previous)
    = (inl e, Some previous) /\
    getRedashClient
      (snd (initializeRedashClient parseInt url key timeout flag env (Some previous)))
    = inr previous.
Proof.
  intros H. destruct (constructor_fails url key timeout flag env H) as [e He].
  exists e. unfold initializeRedashClient. rewrite He. now split.
Qed.

(** X26. Without configuration in the environment the module loads
    quietly and fails late: when [REDASH_URL] or [REDASH_API_KEY] is unset
    or empty, the constructor's error at load time is swallowed, and
    [getRedashClient] called before any [initializeRedashClient] throws
    the "RedashClient not initialized" error instead. *)
Theorem unconfigured_module_fails_at_first_use (env : ProcessEnv) :
  nonempty (REDASH_URL env) && nonempty (REDASH_API_KEY env) = false ->
  getRedashClient (module_init parseInt env) =
  inl (NewError "RedashClient not initialized. Please call initializeRedashClient() first or ensure proper configuration is available.").
Proof.
  intros H. unfold module_init.
  destruct (constructor_fails None None None None env) as [e ->]; [|reflexivity].
  exact H.
Qed.

End ConfigurationFacts.

(** ** The further properties, run *)

Lemma poll_terminates_witness :
  fst (pollQueryResults env_late_failure (S (Z.to_nat 60000)) (JStr "abc") 60000 1000 w0)
  <> OutOfFuel.
Proof.
  apply (poll_terminates env_late_failure (JStr "abc") 60000 1000 w0).
  - intros w' r. cbn [env_late_failure scripted respond snd]. lia.
  - intros w'. cbn [env_late_failure scripted slept]. lia.
  - lia.
  - apply Nat.lt_succ_diag_r.
Defined.

Lemma poll_timeout_not_early_witness :
  default_timeout <=
  now (snd (pollQueryResults env_slow 100 (JStr "abc") default_timeout default_interval w0))
  - now w0.
Proof.
  apply (poll_timeout_not_early env_slow (JStr "abc") default_timeout default_interval
           100 w0).
  vm_compute. reflexivity.
Defined.

Lemma poll_status_fetches_bounded_witness :
  Z.of_nat (status_fetches (JStr "abc")
              (trace (snd (pollQueryResults env_late_failure 100 (JStr "abc") 60000 1000 w0))))
  <= Z.of_nat (status_fetches (JStr "abc") (trace w0))
     + Z.max 0 ((60000 + 1000 - 1) / 1000).
Proof.
  apply (poll_status_fetches_bounded env_late_failure (JStr "abc") 60000 1000 100 w0
           (snd (pollQueryResults env_late_failure 100 (JStr "abc") 60000 1000 w0))
           (fst (pollQueryResults env_late_failure 100 (JStr "abc") 60000 1000 w0))).
  - intros w1 r. cbn [env_late_failure scripted respond snd]. lia.
  - intros w1. cbn [env_late_failure scripted slept]. lia.
  - lia.
  - apply surjective_pairing.
Defined.

Lemma poll_only_reads_witness :
  exists added : list Event,
    trace (snd (pollQueryResults env_scenario2 10 (JStr "abc") 60000 1000 w0))
    = (added ++ trace w0)%list /\
    Forall (poll_event (JStr "abc") 1000) added /\
    count_requests is_post
      (trace (snd (pollQueryResults env_scenario2 10 (JStr "abc") 60000 1000 w0)))
    = count_requests is_post (trace w0).
Proof.
  apply (poll_only_reads env_scenario2 (JStr "abc") 60000 1000 10 w0
           (snd (pollQueryResults env_scenario2 10 (JStr "abc") 60000 1000 w0))
           (fst (pollQueryResults env_scenario2 10 (JStr "abc") 60000 1000 w0))).
  apply surjective_pairing.
Defined.

Lemma poll_returns_only_fetched_results_witness :
  exists (w1 : World) (job : JValue) (resp : Response),
    now w1 - now w0 < 60000 /\
    reported_job env_scenario2 (JStr "abc") w1 = Some job /\
    prop job "status" = JNum 3 /\
    truthy (prop job "query_result_id") = true /\
    fst (respond env_scenario2 (after_request env_scenario2 w1 (GET (job_url (JStr "abc"))))
           (GET (result_url (prop job "query_result_id")))) = Resolved resp /\
    sample_result = data resp /\
    snd (pollQueryResults env_scenario2 10 (JStr "abc") 60000 1000 w0)
    = after_request env_scenario2
        (after_request env_scenario2 w1 (GET (job_url (JStr "abc"))))
        (GET (result_url (prop job "query_result_id"))).
Proof.
  apply (poll_returns_only_fetched_results env_scenario2 (JStr "abc") 60000 1000 10 w0
           (snd (pollQueryResults env_scenario2 10 (JStr "abc") 60000 1000 w0))
           sample_result).
  vm_compute. reflexivity.
Defined.

Lemma executeQuery_async_returns_result_witness :
  exists w' : World,
    executeQuery env_scenario2 10 "SELECT 1" 5 JUndefined None w0
    = (Return sample_result, w').
Proof.
  eexists.
  apply (executeQuery_async_returns_result env_scenario2 10 2 "SELECT 1" 5 JUndefined
           None w0
           {| now := 2000;
              trace := [Slept 1000; Sent (GET "/api/jobs/abc");
                        Slept 1000; Sent (GET "/api/jobs/abc");
                        Sent (submission "SELECT 1" 5 JUndefined None)] |}
           {| status := 200; data := job_body [("id", JStr "abc")] |}
           {| status := 200; data := sample_result |}
           (JObj [("status", JNum 3); ("query_result_id", JNum 42)])).
  - reflexivity.
  - reflexivity.
  - repeat split; reflexivity.
  - reflexivity.
  - reflexivity.
  - reflexivity.
  - lia.
Defined.

Lemma executeQuery_job_failure_keeps_error_text_witness :
  exists msg : string,
    fst (executeQuery env_failed 10 "SELECT 1" 5 JUndefined None w0)
    = Throw (NewError msg) /\
    msg = "Failed to execute query: Failed to poll for query results (job abc): Query execution failed: division by zero" /\
    includes msg "division by zero" = true.
Proof.
  destruct (executeQuery_job_failure_keeps_error_text env_failed 10 0 "SELECT 1" 5
              JUndefined None w0
              (after_request env_failed w0 (submission "SELECT 1" 5 JUndefined None))
              {| status := 200; data := job_body [("id", JStr "abc")] |}
              (JObj [("status", JNum 4); ("error", JStr "division by zero")])
              "division by zero")
    as (msg & Hrun & Hmsg & Hinc).
  - reflexivity.
  - reflexivity.
  - repeat split; reflexivity.
  - reflexivity.
  - reflexivity.
  - lia.
  - exists msg. split; [now rewrite Hrun|]. split; [exact Hmsg | exact Hinc].
Defined.

Lemma executeQueryById_job_failure_drops_error_text_witness :
  fst (executeQueryById env_failed 10 7 JUndefined w0)
  = Throw (NewError "Failed to execute query 7").
Proof.
  rewrite (executeQueryById_job_failure_drops_error_text env_failed 10 0 7 JUndefined w0
             (after_request env_failed w0 (submission_by_id 7 JUndefined))
             {| status := 200; data := job_body [("id", JStr "abc")] |}
             (JObj [("status", JNum 4); ("error", JStr "division by zero")])
             "division by zero").
  - reflexivity.
  - reflexivity.
  - reflexivity.
  - repeat split; reflexivity.
  - reflexivity.
  - reflexivity.
  - lia.
Defined.

Lemma executeQuery_errors_are_wrapped_witness :
  exists cause : string,
    NewError "Failed to execute query: Request failed with status code 500"
    = NewError ("Failed to execute query: " ++ cause).
Proof.
  apply (executeQuery_errors_are_wrapped env_rejected 10 "SELECT 1" 5 JUndefined None w0
           (after_request env_rejected w0 (submission "SELECT 1" 5 JUndefined None))).
  reflexivity.
Defined.

Lemma executeQuery_submits_once_witness :
  exists added : list Event,
    trace (snd (executeQuery env_scenario2 10 "SELECT 1" 5 JUndefined None w0))
    = (added ++ Sent (submission "SELECT 1" 5 JUndefined None) :: trace w0)%list /\
    count_requests is_post added = 0%nat.
Proof.
  apply (executeQuery_submits_once env_scenario2 10 "SELECT 1" 5 JUndefined None w0
           (snd (executeQuery env_scenario2 10 "SELECT 1" 5 JUndefined None w0))
           (fst (executeQuery env_scenario2 10 "SELECT 1" 5 JUndefined None w0))).
  apply surjective_pairing.
Defined.

Lemma executeQueryById_submits_once_witness :
  exists added : list Event,
    trace (snd (executeQueryById env_scenario2 10 7 JUndefined w0))
    = (added ++ Sent (submission_by_id 7 JUndefined) :: trace w0)%list /\
    count_requests is_post added = 0%nat.
Proof.
  apply (executeQueryById_submits_once env_scenario2 10 7 JUndefined w0
           (snd (executeQueryById env_scenario2 10 7 JUndefined w0))
           (fst (executeQueryById env_scenario2 10 7 JUndefined w0))).
  apply surjective_pairing.
Defined.

Lemma executeQuery_returns_undefined_on_empty_body_witness :
  executeQuery env_empty_body 10 "SELECT 1" 5 JUndefined None w0 =
  (Return JUndefined,
   after_request env_empty_body w0 (submission "SELECT 1" 5 JUndefined None)).
Proof.
  exact (executeQuery_returns_undefined_on_empty_body env_empty_body 10 "SELECT 1" 5
           JUndefined None w0 {| status := 200; data := JObj [] |}
           eq_refl eq_refl eq_refl eq_refl).
Defined.

Lemma createQuery_rejection_classified_witness :
  createQuery env_unprocessable sent_unless_unsupported sample_query w0 =
  (Throw (NewError ("Failed to create query: Redash API error (422): "
                      ++ stringify (JObj [("message", JStr "name is required")]))),
   after_request env_unprocessable w0 (POST "/api/queries" (create_query_data sample_query)))
  /\
  createQuery env_offline sent_unless_unsupported sample_query w0 =
  (Throw (NewError "Failed to create query: No response received from Redash API: Network Error"),
   after_request env_offline w0 (POST "/api/queries" (create_query_data sample_query)))
  /\
  createQuery env_unsupported sent_unless_unsupported sample_query w0 =
  (Throw (NewError "Failed to create query: Unsupported protocol localhost:"),
   after_request env_unsupported w0 (POST "/api/queries" (create_query_data sample_query))).
Proof.
  split; [|split].
  - exact (createQuery_rejection_classified env_unprocessable sent_unless_unsupported
             sample_query w0 "Request failed with status code 422"
             (Some {| status := 422;
                      data := JObj [("message", JStr "name is required")] |})
             eq_refl eq_refl).
  - exact (createQuery_rejection_classified env_offline sent_unless_unsupported
             sample_query w0 "Network Error" None eq_refl eq_refl).
  - exact (createQuery_rejection_classified env_unsupported sent_unless_unsupported
             sample_query w0 "Unsupported protocol localhost:" None eq_refl eq_refl).
Defined.

Lemma createQuery_null_body_after_success_witness :
  createQuery env_null_body sent_unless_unsupported sample_query w0 =
  (Throw (NewError "Failed to create query: Cannot read properties of null (reading 'id')"),
   after_request env_null_body w0 (POST "/api/queries" (create_query_data sample_query))).
Proof.
  exact (createQuery_null_body_after_success env_null_body sent_unless_unsupported
           sample_query w0
           {| status := 200; data := JNull |} eq_refl eq_refl eq_refl).
Defined.

Lemma create_widget_text_wins_witness :
  prop (create_widget_data text_widget) "text" = JStr "hello" /\
  prop (create_widget_data text_widget) "visualization_id" = JNull /\
  prop (prop (create_widget_data text_widget) "options") "position" =
  JObj [("autoHeight", JBool false); ("sizeX", JNum 3); ("sizeY", JNum 3);
        ("minSizeX", JNum 1); ("maxSizeX", JNum 6);
        ("minSizeY", JNum 1); ("maxSizeY", JNum 1000);
        ("col", JNum 2); ("row", JNum 0)].
Proof.
  destruct (create_widget_text_wins text_widget) as (Ht & Hv & Hp).
  - left. discriminate.
  - split; [exact Ht | split; [exact Hv | exact Hp]].
Defined.

Lemma create_widget_chart_keeps_layout_witness :
  prop (create_widget_data chart_widget) "text" = JUndefined /\
  prop (create_widget_data chart_widget) "visualization_id" = JNum 17 /\
  prop (prop (create_widget_data chart_widget) "options") "position" = JUndefined.
Proof.
  destruct (create_widget_chart_keeps_layout chart_widget) as (Ht & Hv & Hp).
  - reflexivity.
  - discriminate.
  - split; [exact Ht | split; [exact Hv | exact Hp]].
Defined.

Lemma create_widget_options_kept_witness :
  truthy (prop (create_widget_data chart_widget) "width") = true /\
  prop (prop (create_widget_data chart_widget) "options") "isHidden" = JBool false /\
  prop (prop (create_widget_data chart_widget) "options") "parameterMappings" = JObj [].
Proof.
  destruct (create_widget_options_kept chart_widget "parameterMappings") as (Hw & Hh & Hk).
  split; [exact Hw | split; [exact Hh | exact (Hk eq_refl eq_refl)]].
Defined.

Lemma update_widget_options_complete_witness :
  let options := update_widget_options (JObj [("isHidden", JBool true); ("title", JStr "t")]) in
  truthy (prop options "parameterMappings") = true /\
  prop options "isHidden" = JBool true /\
  prop options "title" = JStr "t" /\
  update_widget_options options = options.
Proof.
  destruct (update_widget_options_complete
              [("isHidden", JBool true); ("title", JStr "t")] "title")
    as (Hp & Hh & Hk & Hi).
  split; [exact Hp | split; [exact Hh | split; [exact (Hk eq_refl eq_refl) | exact Hi]]].
Defined.

Lemma updateWidget_fetch_failure_posts_nothing_witness :
  exists w' : World,
    updateWidget env_widget_down sent_unless_unsupported 9 widget_change w0 =
    (Throw (NewError "Failed to update widget 9: No response received from Redash API: Network Error"),
     w') /\
    trace w' = [Sent (GET "/api/widgets/9")] /\
    count_requests is_post (trace w') = 0%nat.
Proof.
  exact (updateWidget_fetch_failure_posts_nothing env_widget_down
           sent_unless_unsupported 9 widget_change w0
           "Network Error" None eq_refl).
Defined.

Lemma updateWidget_keeps_identity_witness :
  exists body : JValue,
    trace (snd (updateWidget env_unprocessable sent_unless_unsupported 9 widget_change w0)) =
    [Sent (POST "/api/widgets/9" body); Sent (GET "/api/widgets/9")] /\
    prop body "id" = JNum 9 /\
    prop body "dashboard_id" = JNum 4 /\
    prop body "visualization_id" = JNull /\
    prop body "width" = JNum 3 /\
    prop body "text" = JStr "hello".
Proof.
  destruct (updateWidget_keeps_identity env_unprocessable sent_unless_unsupported
              9 widget_change w0
              (snd (updateWidget env_unprocessable sent_unless_unsupported 9 widget_change w0))
              {| status := 200; data := stored_widget |}
              (fst (updateWidget env_unprocessable sent_unless_unsupported 9 widget_change w0))
              eq_refl eq_refl (surjective_pairing _))
    as (body & Ht & Hi & Hd & Hv & _ & Htext).
  exists body. split; [exact Ht|]. split; [exact Hi|]. split; [exact Hd|].
  split; [exact Hv|]. split; [|exact (Htext eq_refl)].
  vm_compute in Ht. injection Ht as <-. reflexivity.
Defined.

Lemma handler_prelude_ready_witness :
  exists client : RedashClient,
    handler_prelude parse_digits argv_url_only env_file None
    = (Ready client, Some client) /\
    baseUrl client = "https://other.example.org" /\
    apiKey client = "secret" /\
    rejectUnauthorized client = true /\
    timeoutMs client = Some 30000.
Proof.
  destruct (handler_prelude_ready parse_digits argv_url_only env_file None
              eq_refl eq_refl)
    as (client & Hrun & Hb & Ha & Hr & Ht).
  exists client. split; [exact Hrun|]. split; [exact Hb|]. split; [exact Ha|].
  split; [exact Hr|]. apply Ht; [reflexivity | discriminate].
Defined.

Lemma constructor_tls_verification_witness :
  rejectUnauthorized
    {| baseUrl := "https://redash.example.org"; apiKey := "secret";
       timeoutMs := Some 30000; rejectUnauthorized := false |} = false <->
  NODE_TLS_REJECT_UNAUTHORIZED env_file = Some "0" \/
  REDASH_IGNORE_SSL_ERRORS env_file = Some "true".
Proof.
  exact (constructor_tls_verification parse_digits None None None None env_file
           {| baseUrl := "https://redash.example.org"; apiKey := "secret";
              timeoutMs := Some 30000; rejectUnauthorized := false |} eq_refl).
Defined.

Lemma initialize_failure_keeps_client_witness :
  exists e : Thrown,
    initializeRedashClient parse_digits None (Some "secret") None None env_unset
      (Some earlier_client)
    = (inl e, Some earlier_client) /\
    getRedashClient
      (snd (initializeRedashClient parse_digits None (Some "secret") None None env_unset
              (Some earlier_client)))
    = inr earlier_client.
Proof.
  exact (initialize_failure_keeps_client parse_digits None (Some "secret") None None
           env_unset earlier_client eq_refl).
Defined.

Lemma unconfigured_module_fails_at_first_use_witness :
  getRedashClient (module_init parse_digits env_unset) =
  inl (NewError "RedashClient not initialized. Please call initializeRedashClient() first or ensure proper configuration is available.").
Proof.
  exact (unconfigured_module_fails_at_first_use parse_digits env_unset eq_refl).
Defined.
